(** * K8s Chat: the safety gate, the Goose session service, the chat
      workflow and the chat service, embedded from the Python sources.

    - [Kubectl]  : backend/extensions/k8s/tools/kubectl.py
    - [Goose]    : backend/app/services/goose_service.py
    - [Workflow] : backend/app/temporal/workflows.py
    - [Chat]     : backend/app/services/chat_service.py, backend/app/models/chat.py

    Python sets are [gset string], dictionaries keyed by string are
    [gmap string _], [datetime] values are microsecond counts in [Z].
    Calls on a structlog logger accept keyword arguments and have no
    effect on results: they are left out. The workflow logs through
    [workflow.logger] instead, and its [error] calls with a keyword
    argument are part of [Workflow]. *)

From Stdlib Require Import ZArith String List Lia DecimalString.
From stdpp Require Import base option strings list gmap fin_maps.

Local Open Scope string_scope.
Local Open Scope list_scope.

(** ** Values shared by the modules *)

(** What [json.loads] returns and what tool arguments and results carry. *)
#[local] Unset Elimination Schemes.
Inductive json : Type :=
| JNull
| JBool (b : bool)
| JNum (z : Z)
| JStr (s : string)
| JArr (l : list json)
| JObj (l : list (string * json)).
#[local] Set Elimination Schemes.

(** Python truthiness of a [str] and of an [Optional[str]]. *)
Definition truthy (s : string) : bool := negb (String.eqb s "").

Definition truthy_opt (o : option string) : bool :=
  match o with Some s => truthy s | None => false end.

(** The line feed of Python's ["\n"]. *)
Definition newline : string := String (Ascii.ascii_of_nat 10) EmptyString.

(** [str(n)] of a natural number. *)
Definition str_of_nat (n : nat) : string := NilEmpty.string_of_uint (Nat.to_uint n).

(** A call either returns a value or raises an exception whose [str(e)] is
    the carried text. *)
Inductive outcome (A : Type) : Type :=
| Returns (a : A)
| Raises (msg : string).
Arguments Returns {A} a.
Arguments Raises {A} msg.

(** ** models/chat.py *)
Module Models.

Inductive MessageRole : Type := USER | ASSISTANT | SYSTEM.

Record ToolCall : Type := mkToolCall {
  tc_id : string;
  tc_name : string;
  tc_arguments : list (string * json)
}.

Record ToolResult : Type := mkToolResult {
  tr_id : string;
  tr_name : string;
  tr_result : json;
  tr_success : bool;
  tr_error : option string
}.

Record ChatMessage : Type := mkChatMessage {
  msg_id : string;
  role : MessageRole;
  content : string;
  timestamp : Z;
  msg_metadata : option json;
  tool_calls : option (list ToolCall);
  tool_results : option (list ToolResult)
}.

End Models.

(** ** kubectl.py *)
Module Kubectl.

(** Class attributes of [KubectlTool]. *)
Definition SAFE_COMMANDS : gset string :=
  {[ "get"; "describe"; "logs"; "top"; "version"; "cluster-info";
     "config"; "explain"; "api-resources"; "api-versions" ]}.

Definition WRITE_COMMANDS : gset string :=
  {[ "apply"; "create"; "replace"; "patch"; "edit"; "scale"; "autoscale";
     "expose"; "set"; "label"; "annotate" ]}.

Definition DANGEROUS_COMMANDS : gset string :=
  {[ "delete"; "rollout"; "drain"; "cordon"; "uncordon"; "taint" ]}.

(** The dictionary returned by [_check_command_security]. *)
Record SecurityCheck : Type := mkSecurityCheck {
  allowed : bool;
  reason : string;
  category : string
}.

Definition dangerous_verdict (command : string) : SecurityCheck :=
  {| allowed := false;
     reason := "Command '" +:+ command +:+ "' is dangerous and not allowed for safety";
     category := "dangerous" |}.

Definition needs_confirmation_verdict (command : string) : SecurityCheck :=
  {| allowed := false;
     reason := "Command '" +:+ command
               +:+ "' modifies cluster state and requires confirmation (set confirm=true)";
     category := "write_needs_confirmation" |}.

Definition unknown_verdict (command : string) : SecurityCheck :=
  {| allowed := false;
     reason := "Unknown command '" +:+ command +:+ "' - not in allowed list";
     category := "unknown" |}.

(** The method reads the three sets through [self], so the body is first
    written over any three sets and then tied to the class attributes. *)
Section Classifier.
Variables safe write dangerous : gset string.

Definition check_command_security_with (command : string) (confirm : bool)
  : SecurityCheck :=
  if bool_decide (command ∈ dangerous) then dangerous_verdict command
  else if bool_decide (command ∈ write) && negb confirm
       then needs_confirmation_verdict command
  else if bool_decide (command ∈ safe)
          || (bool_decide (command ∈ write) && confirm)
       then {| allowed := true;
               reason := "Command is safe to execute";
               category := if bool_decide (command ∈ safe)
                           then "safe" else "confirmed_write" |}
  else unknown_verdict command.
End Classifier.

Definition _check_command_security : string -> bool -> SecurityCheck :=
  check_command_security_with SAFE_COMMANDS WRITE_COMMANDS DANGEROUS_COMMANDS.

(** *** [execute] and the two subprocess users *)

(** [self] of a [KubectlTool]. *)
Record KubectlTool : Type := mkKubectlTool {
  default_namespace : string;
  kubectl_context : option string
}.

(** What [create_subprocess_exec], [communicate] and the two [decode]
    calls give: an exit with decoded streams, or an exception
    ([not_found] tells [FileNotFoundError] from the others). *)
Inductive ProcResult : Type :=
| Exited (returncode : Z) (stdout stderr : string)
| SpawnError (not_found : bool) (msg : string).

(** The dictionary returned by [check_kubectl_available]. *)
Record Availability : Type := mkAvailability {
  available : bool;
  version : option json;
  avail_error : option string;
  status : string
}.

(** The dictionary returned by [execute]; optional keys are [option]s. *)
Record ExecResult : Type := mkExecResult {
  success : bool;
  error : string;
  output : string;
  return_code : option Z;
  details : option Availability;
  security_check : option SecurityCheck;
  parsed_output : option json;
  command_executed : option string;
  namespace : option string
}.

(** The subprocesses a call of [execute] starts, in order. *)
Inductive call : Type :=
| ProbeCall
| ExecuteCommandCall (cmd_parts : list string).

(** [str(e)] of the [AttributeError] raised by [version_info.get] when the
    decoded value is not a dictionary. *)
Definition attribute_error_get (v : json) : string :=
  "'" +:+ match v with
          | JNull => "NoneType" | JBool _ => "bool" | JNum _ => "int"
          | JStr _ => "str" | JArr _ => "list" | JObj _ => "dict"
          end +:+ "' object has no attribute 'get'".

Fixpoint dict_get (l : list (string * json)) (k : string) (default : json) : json :=
  match l with
  | [] => default
  | (k', v) :: l' => if String.eqb k' k then v else dict_get l' k default
  end.

Section Execute.
(** The environment: the outcome of the availability probe, the outcome
    of running an argument vector, [json.loads] ([None] for
    [JSONDecodeError]) and [str.strip]. *)
Variable probe_result : ProcResult.
Variable command_result : list string -> ProcResult.
Variable json_loads : string -> option json.
Variable strip : string -> string.

Definition check_kubectl_available : Availability :=
  match probe_result with
  | Exited rc out err =>
      if (rc =? 0)%Z then
        match json_loads out with
        | Some (JObj l) =>
            mkAvailability true (Some (dict_get l "clientVersion" (JObj []))) None "ready"
        | Some v =>
            mkAvailability false None (Some (attribute_error_get v)) "error"
        | None => mkAvailability true (Some (JStr "unknown")) None "ready"
        end
      else mkAvailability false None (Some err) "error"
  | SpawnError true _ =>
      mkAvailability false None (Some "kubectl not found in PATH") "not_installed"
  | SpawnError false msg => mkAvailability false None (Some msg) "error"
  end.

Definition _execute_command (cmd_parts : list string) : ExecResult :=
  match command_result cmd_parts with
  | Exited rc out err =>
      {| success := (rc =? 0)%Z;
         error := if truthy err then strip err else "";
         output := if truthy out then strip out else "";
         return_code := Some rc;
         details := None; security_check := None; parsed_output := None;
         command_executed := None; namespace := None |}
  | SpawnError _ msg =>
      {| success := false;
         error := "Execution failed: " +:+ msg;
         output := "";
         return_code := Some (-1)%Z;
         details := None; security_check := None; parsed_output := None;
         command_executed := None; namespace := None |}
  end.

Definition failure (err : string) (d : option Availability)
    (sc : option SecurityCheck) : ExecResult :=
  {| success := false; error := err; output := ""; return_code := None;
     details := d; security_check := sc; parsed_output := None;
     command_executed := None; namespace := None |}.

Definition target_namespace (self : KubectlTool) (ns : option string) : string :=
  match ns with
  | Some n => if truthy n then n else default_namespace self
  | None => default_namespace self
  end.

(** [cmd_parts] as [execute] builds it. *)
Definition build_cmd_parts (self : KubectlTool) (command : string)
    (args : option (list string)) (ns output : option string) : list string :=
  ["kubectl"]
  ++ (if truthy_opt (kubectl_context self)
      then ["--context"; default "" (kubectl_context self)] else [])
  ++ [command]
  ++ (if truthy (target_namespace self ns)
         && negb (bool_decide (command ∈ ["version"; "cluster-info"; "config"]))
      then ["-n"; target_namespace self ns] else [])
  ++ default [] args
  ++ (if truthy_opt output && bool_decide (command ∈ SAFE_COMMANDS)
      then ["-o"; default "" output] else []).

(** [execute], with the subprocesses it started. None of the calls in
    its [try] body raises here: both helpers catch their own errors. *)
Definition execute (self : KubectlTool) (command : string)
    (args : option (list string)) (ns output : option string)
    (confirm : bool) : ExecResult * list call :=
  if negb (truthy command) then (failure "Command is required" None None, [])
  else
    let kubectl_available := check_kubectl_available in
    if negb (available kubectl_available) then
      (failure "kubectl is not available" (Some kubectl_available) None, [ProbeCall])
    else
      let cmd_parts := build_cmd_parts self command args ns output in
      let check := _check_command_security command confirm in
      if negb (allowed check) then
        (failure (reason check) None (Some check), [ProbeCall])
      else
        let result := _execute_command cmd_parts in
        let parsed :=
          if bool_decide (output = Some "json") && success result
          then json_loads (Kubectl.output result) else None in
        ({| success := success result;
            error := error result;
            output := Kubectl.output result;
            return_code := return_code result;
            details := None; security_check := None;
            parsed_output := parsed;
            command_executed := Some (String.concat " " cmd_parts);
            namespace := Some (target_namespace self ns) |},
         [ProbeCall; ExecuteCommandCall cmd_parts]).
End Execute.

(** *** Sample environment

    A tool with the default settings, a probe that finds kubectl, a
    runner whose commands all exit with status 0, and a probe that does
    not find kubectl. *)
Definition sample_tool : KubectlTool := mkKubectlTool "default" None.

Definition probe_ready : ProcResult := Exited 0 "{}" "".

Definition probe_missing : ProcResult := SpawnError true "No such file or directory".

Definition run_fine (cmd_parts : list string) : ProcResult := Exited 0 "ok" "".

Definition loads_empty_object (s : string) : option json :=
  if String.eqb s "{}" then Some (JObj []) else None.

Definition strip_id (s : string) : string := s.

End Kubectl.

(** ** goose_service.py *)
Module Goose.
Import Models.

(** The Goose library's session object is opaque: the service only calls
    its [close] and [send_message]. It is a handle here, and the
    environment says what the two calls do. *)
Definition handle : Type := nat.

Record GooseSessionData : Type := mkGooseSessionData {
  id : string;
  goose_session : option handle;
  created_at : Z;
  updated_at : Z;
  status : string;
  messages : list ChatMessage;
  metadata : list (string * json)
}.

(** An event object yielded by the Goose session: the service reads its
    [type] and then the attributes of that type. *)
Record GooseEvent : Type := mkGooseEvent {
  type : string;
  ev_content : string;
  tool_name : string;
  arguments : list (string * json);
  result : json;
  ev_success : bool;
  ev_error : option string
}.

(** How the asynchronous iteration over the Goose session ends. *)
Inductive stream_end : Type :=
| Exhausted
| Raised (msg : string).

Record upstream : Type := mkUpstream {
  items : list GooseEvent;
  ending : stream_end
}.

(** The dictionaries yielded by [send_message]. *)
Inductive Event : Type :=
| SessionStart (session_id : string)
| MessageDelta (delta message_id session_id : string)
| ToolCallEvent (tool_call : ToolCall) (session_id : string)
| ToolResultEvent (tool_result : ToolResult) (session_id : string)
| MessageComplete (content message_id session_id : string)
| Error (error : string) (session_id : option string).

(** The ["type"] entry of an event dictionary. *)
Definition event_type (e : Event) : string :=
  match e with
  | SessionStart _ => "session_start"
  | MessageDelta _ _ _ => "message_delta"
  | ToolCallEvent _ _ => "tool_call"
  | ToolResultEvent _ _ => "tool_result"
  | MessageComplete _ _ _ => "message_complete"
  | Error _ _ => "error"
  end.

Definition is_terminal (e : Event) : bool :=
  match e with
  | MessageComplete _ _ _ | Error _ _ => true
  | _ => false
  end.

(** The service object together with the two sources it draws from: how
    many times the clock was read, how many UUIDs were generated, and
    which Goose sessions were asked to close. *)
Record State : Type := mkState {
  sessions : gmap string GooseSessionData;
  clock_reads : nat;
  uuids_drawn : nat;
  close_calls : list handle
}.

(** The state after one more reading of the clock. *)
Definition tick (st : State) : State :=
  mkState (sessions st) (S (clock_reads st)) (uuids_drawn st) (close_calls st).

(** Whether the Goose stream holds a [message_complete] event, and whether
    it delivers one or raises. *)
Definition has_complete (evs : list GooseEvent) : bool :=
  existsb (fun ev => String.eqb (type ev) "message_complete") evs.

Definition upstream_terminates (u : upstream) : bool :=
  has_complete (items u)
  || match ending u with Raised _ => true | Exhausted => false end.

Definition M (A : Type) : Type := State -> A * State.

Definition ret {A : Type} (a : A) : M A := fun st => (a, st).

Definition bind {A B : Type} (m : M A) (k : A -> M B) : M B :=
  fun st => let (a, st') := m st in k a st'.

Notation "'let*' x ':=' m 'in' k" := (bind m (fun x => k))
  (at level 10, x name, m at level 100, k at level 200).

Definition with_sessions (f : gmap string GooseSessionData -> gmap string GooseSessionData)
    : M unit :=
  fun st => (tt, mkState (f (sessions st)) (clock_reads st) (uuids_drawn st) (close_calls st)).

Definition append_message (m : ChatMessage) (s : GooseSessionData) : GooseSessionData :=
  mkGooseSessionData (id s) (goose_session s) (created_at s) (updated_at s)
    (status s) (messages s ++ [m]) (metadata s).

Definition set_updated_at (t : Z) (s : GooseSessionData) : GooseSessionData :=
  mkGooseSessionData (id s) (goose_session s) (created_at s) t
    (status s) (messages s) (metadata s).

Section Service.
(** The environment: successive readings of [datetime.now()] in
    microseconds, successive values of [uuid.uuid4()],
    [settings.goose_session_timeout] in seconds, and the behaviour of
    each Goose session ([close] returns, or raises with a message). *)
Variable now_at : nat -> Z.
Variable uuid_at : nat -> string.
Variable goose_session_timeout : Z.
Variable close_of : handle -> option string.
Variable stream_of : handle -> string -> upstream.

Definition datetime_now : M Z :=
  fun st => (now_at (clock_reads st),
             mkState (sessions st) (S (clock_reads st)) (uuids_drawn st) (close_calls st)).

Definition uuid4 : M string :=
  fun st => (uuid_at (uuids_drawn st),
             mkState (sessions st) (clock_reads st) (S (uuids_drawn st)) (close_calls st)).

(** [timedelta(seconds=n)] in microseconds. *)
Definition timedelta_seconds (n : Z) : Z := (n * 1000000)%Z.

Definition _is_session_expired (session : GooseSessionData) : M bool :=
  let timeout := timedelta_seconds goose_session_timeout in
  let* now := datetime_now in
  ret (timeout <? now - updated_at session)%Z.

(** The test of [_is_session_expired] at the next clock reading. *)
Definition expired_at (st : State) (session : GooseSessionData) : bool :=
  (timedelta_seconds goose_session_timeout
   <? now_at (clock_reads st) - updated_at session)%Z.

(** Whether releasing the session's Goose session goes through. *)
Definition close_succeeds (session : GooseSessionData) : bool :=
  match goose_session session with
  | Some h => match close_of h with None => true | Some _ => false end
  | None => true
  end.

(** [close_session]: when [goose_session.close()] raises, the handler
    returns [False] before the entry is deleted. On the other path the
    session object is marked closed and leaves the store, where nothing
    reads it again. *)
Definition close_session (session_id : string) : M bool :=
  fun st =>
    match sessions st !! session_id with
    | None => (false, st)
    | Some session =>
        match goose_session session with
        | Some h =>
            let st1 := mkState (sessions st) (clock_reads st) (uuids_drawn st)
                         (close_calls st ++ [h]) in
            match close_of h with
            | Some _ => (false, st1)
            | None =>
                (true, mkState (delete session_id (sessions st)) (clock_reads st)
                         (uuids_drawn st) (close_calls st ++ [h]))
            end
        | None =>
            (true, mkState (delete session_id (sessions st)) (clock_reads st)
                     (uuids_drawn st) (close_calls st))
        end
    end.

Definition get_session (session_id : string) : M (option GooseSessionData) :=
  fun st =>
    match sessions st !! session_id with
    | Some session =>
        (let* expired := _is_session_expired session in
         if expired
         then let* _ := close_session session_id in ret None
         else ret (Some session)) st
    | None => (None, st)
    end.

(** The comprehension of [list_sessions] over [self.sessions.items()];
    the listing order of the map stands for the dictionary's. *)
Fixpoint expired_ids (l : list (string * GooseSessionData)) : M (list string) :=
  match l with
  | [] => ret []
  | (sid, session) :: l' =>
      let* expired := _is_session_expired session in
      let* rest := expired_ids l' in
      ret (if expired then sid :: rest else rest)
  end.

Fixpoint close_all (sids : list string) : M unit :=
  match sids with
  | [] => ret tt
  | sid :: sids' => let* _ := close_session sid in close_all sids'
  end.

Definition list_sessions : M (list GooseSessionData) :=
  fun st =>
    (let* expired_sessions := expired_ids (map_to_list (sessions st)) in
     let* _ := close_all expired_sessions in
     fun st' => ((map_to_list (sessions st')).*2, st')) st.

(** The body of the [async for] loop of [send_message]: the events
    yielded from here on. [response_content], [current_tool_calls] and
    [current_tool_results] are the loop's local variables. *)
Fixpoint stream_loop (session_id message_id : string)
    (evs : list GooseEvent) (e : stream_end)
    (response_content : string)
    (current_tool_calls : list ToolCall)
    (current_tool_results : list ToolResult) : M (list Event) :=
  match evs with
  | [] =>
      match e with
      | Exhausted => ret []
      | Raised msg => ret [Error msg (Some session_id)]
      end
  | event :: evs' =>
      if String.eqb (type event) "text_delta" then
        let* out := stream_loop session_id message_id evs' e
                      (response_content +:+ ev_content event)
                      current_tool_calls current_tool_results in
        ret (MessageDelta (ev_content event) message_id session_id :: out)
      else if String.eqb (type event) "tool_call" then
        let* i := uuid4 in
        let tool_call_data := mkToolCall i (tool_name event) (arguments event) in
        let* out := stream_loop session_id message_id evs' e response_content
                      (current_tool_calls ++ [tool_call_data]) current_tool_results in
        ret (ToolCallEvent tool_call_data session_id :: out)
      else if String.eqb (type event) "tool_result" then
        let* i := uuid4 in
        let tool_result_data :=
          mkToolResult i (tool_name event) (result event) (ev_success event)
            (if ev_success event then None else ev_error event) in
        let* out := stream_loop session_id message_id evs' e response_content
                      current_tool_calls (current_tool_results ++ [tool_result_data]) in
        ret (ToolResultEvent tool_result_data session_id :: out)
      else if String.eqb (type event) "message_complete" then
        let* ts := datetime_now in
        let assistant_message :=
          mkChatMessage message_id ASSISTANT response_content ts None
            (match current_tool_calls with [] => None | l => Some l end)
            (match current_tool_results with [] => None | l => Some l end) in
        let* _ := with_sessions (alter (append_message assistant_message) session_id) in
        let* t := datetime_now in
        let* _ := with_sessions (alter (set_updated_at t) session_id) in
        ret [MessageComplete response_content message_id session_id]
      else
        stream_loop session_id message_id evs' e response_content
          current_tool_calls current_tool_results
  end.

(** What iterating [session.goose_session.send_message(message)] gives;
    with no Goose session the attribute access raises. *)
Definition goose_send_message (session : GooseSessionData) (message : string)
  : upstream :=
  match goose_session session with
  | Some h => stream_of h message
  | None => mkUpstream [] (Raised "'NoneType' object has no attribute 'send_message'")
  end.

(** [send_message], run until the generator is exhausted: the events in
    the order they are yielded. The session object found by
    [get_session] is the one stored under [session_id], so its
    mutations are updates of that entry. *)
Definition send_message (session_id message : string) : M (list Event) :=
  let* session := get_session session_id in
  match session with
  | None =>
      ret [Error ("Session " +:+ session_id +:+ " not found or expired") None]
  | Some session =>
      let* i := uuid4 in
      let* ts := datetime_now in
      let user_message := mkChatMessage i USER message ts None None None in
      let* _ := with_sessions (alter (append_message user_message) session_id) in
      let* t := datetime_now in
      let* _ := with_sessions (alter (set_updated_at t) session_id) in
      let* message_id := uuid4 in
      let up := goose_send_message session message in
      let* out := stream_loop session_id message_id (items up) (ending up) "" [] [] in
      ret (SessionStart session_id :: out)
  end.
End Service.

(** *** Sample environment

    One session ["s1"], last updated at time 0, under a timeout of 3600
    seconds; a clock that is still within the timeout and one that is
    past it; Goose sessions whose [close] returns and whose [close]
    raises; upstream streams that stop after one text fragment, that
    raise after one, and that complete. *)
Definition sample_session : GooseSessionData :=
  mkGooseSessionData "s1" (Some 0) 0 0 "active" [] [].

Definition sample_state : State := mkState {[ "s1" := sample_session ]} 0 0 [].

Definition empty_state : State := mkState ∅ 0 0 [].

Definition clock_early (n : nat) : Z := 1000.

Definition clock_late (n : nat) : Z := 3600000001.

Definition sample_uuid (n : nat) : string := "uuid-" +:+ str_of_nat n.

Definition close_returns (h : handle) : option string := None.

Definition close_raises (h : handle) : option string := Some "close failed".

Definition text_delta_event (c : string) : GooseEvent :=
  mkGooseEvent "text_delta" c "" [] JNull true None.

Definition message_complete_event : GooseEvent :=
  mkGooseEvent "message_complete" "" "" [] JNull true None.

Definition stream_stops (h : handle) (message : string) : upstream :=
  mkUpstream [text_delta_event "Hel"] Exhausted.


Definition stream_completes (h : handle) (message : string) : upstream :=
  mkUpstream [text_delta_event "Hello"; message_complete_event] Exhausted.

End Goose.

(** ** workflows.py *)
Module Workflow.

(** The result of the [analyze_user_intent] activity, a dictionary whose
    entries [run] reads with [.get]: [None] is a missing key. *)
Record IntentAnalysis : Type := mkIntentAnalysis {
  requires_k8s : option bool;
  intent : option string;
  suggested_tools : option (list string);
  confidence : option json
}.

(** [response_data]; the key ["k8s_tool_results"] exists only once a tool
    has returned, and keeps the insertion order of a Python dictionary. *)
Record TurnResult : Type := mkTurnResult {
  conversation_id : string;
  intent_analysis : IntentAnalysis;
  k8s_data : option json;
  response : option string;
  error : option string;
  k8s_tool_results : option (list (string * json))
}.

(** [d[k] = v] on an insertion-ordered dictionary. *)
Fixpoint dict_set (d : list (string * json)) (k : string) (v : json)
  : list (string * json) :=
  match d with
  | [] => [(k, v)]
  | (k', v') :: d' =>
      if String.eqb k' k then (k', v) :: d' else (k', v') :: dict_set d' k v
  end.

Definition record_tool_result (tool : string) (r : json) (rd : TurnResult) : TurnResult :=
  mkTurnResult (conversation_id rd) (intent_analysis rd) (k8s_data rd)
    (response rd) (error rd)
    (Some (dict_set (default [] (k8s_tool_results rd)) tool r)).

Definition set_k8s_data (d : json) (rd : TurnResult) : TurnResult :=
  mkTurnResult (conversation_id rd) (intent_analysis rd) (Some d)
    (response rd) (error rd) (k8s_tool_results rd).

Definition set_response (r : string) (rd : TurnResult) : TurnResult :=
  mkTurnResult (conversation_id rd) (intent_analysis rd) (k8s_data rd)
    (Some r) (error rd) (k8s_tool_results rd).

Definition set_error (e : string) (rd : TurnResult) : TurnResult :=
  mkTurnResult (conversation_id rd) (intent_analysis rd) (k8s_data rd)
    (response rd) (Some e) (k8s_tool_results rd).

(** Python truthiness of a decoded JSON value. *)
Definition json_truthy (v : json) : bool :=
  match v with
  | JNull => false
  | JBool b => b
  | JNum z => negb (z =? 0)%Z
  | JStr s => truthy s
  | JArr l => match l with [] => false | _ => true end
  | JObj l => match l with [] => false | _ => true end
  end.

(** The text shown to the user when the turn fails. *)
Definition apology (e : string) : string :=
  "I encountered an error while processing your request: " +:+ e.

Section Run.
(** The environment: what each [workflow.execute_activity] call gives
    (after the substrate's own retries and timeout), [workflow.now()
    .isoformat()], the [str()] of a dictionary value, and what
    [workflow.logger.error(msg, error=text)] does: it returns, or raises
    an exception with the carried text. The tool activity is indexed by
    its position in [suggested_tools]. The two [workflow.logger.info]
    calls take a message only and are left out. *)
Variable analyze_user_intent : string -> list json -> outcome IntentAnalysis.
Variable get_cluster_status : outcome json.
Variable execute_k8s_command : nat -> string -> outcome json.
Variable get_claude_response : list json -> outcome string.
Variable now_isoformat : string.
Variable str_of : json -> string.
Variable logger_error : string -> string -> outcome unit.

Definition message_dict (i r c : string) : json :=
  JObj [("id", JStr i); ("role", JStr r); ("content", JStr c);
        ("timestamp", JStr now_isoformat)].

Definition tool_lines (results : list (string * json)) : string :=
  String.concat ""
    (map (fun tr => "- " +:+ tr.1 +:+ ": " +:+ str_of tr.2 +:+ newline)
         results).

Definition _enhance_messages_with_k8s_context
    (conversation_history : list json) (user_message : string)
    (k8s_data : option json) (k8s_tool_results : option (list (string * json)))
  : list json :=
  let user := message_dict ("user-" +:+ str_of_nat (length conversation_history))
                "user" user_message in
  let nl := newline in
  let has_data := match k8s_data with Some d => json_truthy d | None => false end in
  let has_results :=
    match k8s_tool_results with Some (_ :: _) => true | _ => false end in
  if has_data || has_results then
    let context_content :=
      "Current Kubernetes cluster context:" +:+ nl +:+ nl
      +:+ (if has_data
           then "Cluster Status: " +:+ str_of (default JNull k8s_data) +:+ nl +:+ nl
           else "")
      +:+ (if has_results
           then "Tool Results:" +:+ nl +:+ tool_lines (default [] k8s_tool_results) +:+ nl
           else "") in
    conversation_history
    ++ [message_dict
          ("system-context-" +:+ str_of_nat (S (length conversation_history)))
          "system" context_content;
        user]
  else conversation_history ++ [user].

(** The [for tool in suggested_tools] loop: [response_data] as the loop
    leaves it, and the exception that left the loop, if any. The inner
    handler logs the exception of a tool activity; the loop goes on to
    the next tool when that call returns, and is left by the exception of
    that call when it raises. *)
Fixpoint run_tools (i : nat) (tools : list string) (rd : TurnResult)
  : TurnResult * option string :=
  match tools with
  | [] => (rd, None)
  | tool :: tools' =>
      match execute_k8s_command i tool with
      | Returns tool_result => run_tools (S i) tools' (record_tool_result tool tool_result rd)
      | Raises e =>
          match logger_error ("Failed to execute K8s tool " +:+ tool) e with
          | Returns _ => run_tools (S i) tools' rd
          | Raises t => (rd, Some t)
          end
      end
  end.

(** Step 2 inside the outer [try]: [response_data] as it stands when the
    step ends, and the exception that left it, if any. *)
Definition gather_context (rd : TurnResult) : TurnResult * option string :=
  if default false (requires_k8s (intent_analysis rd)) then
    match get_cluster_status with
    | Raises e => (rd, Some e)
    | Returns cluster_status =>
        run_tools 0 (default [] (suggested_tools (intent_analysis rd)))
          (set_k8s_data cluster_status rd)
    end
  else (rd, None).

(** The body of the outer [try]: step 2, then step 3 on what step 2
    left in [response_data]. *)
Definition try_body (user_message : string) (conversation_history : list json)
    (rd : TurnResult) : TurnResult * option string :=
  match gather_context rd with
  | (rd1, Some e) => (rd1, Some e)
  | (rd1, None) =>
      let enhanced_messages :=
        _enhance_messages_with_k8s_context conversation_history user_message
          (k8s_data rd1) (k8s_tool_results rd1) in
      match get_claude_response enhanced_messages with
      | Returns claude_response => (set_response claude_response rd1, None)
      | Raises e => (rd1, Some e)
      end
  end.

(** [ChatWorkflow.run]. The intent analysis runs outside the [try]. The
    outer handler logs the exception first and sets [error] and
    [response] afterwards, so an exception of the logging call leaves
    [run] before either is set. *)
Definition run (user_message : string) (conversation_history : list json)
    (conversation_id : string) : outcome TurnResult :=
  match analyze_user_intent user_message conversation_history with
  | Raises e => Raises e
  | Returns intent_analysis =>
      let response_data :=
        mkTurnResult conversation_id intent_analysis None None None None in
      match try_body user_message conversation_history response_data with
      | (rd, None) => Returns rd
      | (rd, Some e) =>
          match logger_error "Error in chat workflow" e with
          | Returns _ => Returns (set_response (apology e) (set_error e rd))
          | Raises t => Raises t
          end
      end
  end.
End Run.

(** *** Sample environment

    An intent analysis that asks for the cluster and one tool, a cluster
    status activity that fails, a tool activity that fails, a completion
    that answers, and the logger of the standard library behind
    [workflow.logger]. *)
Definition sample_intent (user_message : string) (conversation_history : list json)
  : outcome IntentAnalysis :=
  Returns (mkIntentAnalysis (Some true) (Some "list all pods") (Some ["get_pods"]) None).


Definition cluster_ready : outcome json := Returns (JObj [("status", JStr "ok")]).

Definition tools_fail (i : nat) (tool : string) : outcome json := Raises "tool failed".

Definition claude_answers (messages : list json) : outcome string :=
  Returns "Here are your pods.".

Definition str_braces (v : json) : string := "{}".

(** [workflow.logger] is a [logging.LoggerAdapter]: [error] hands its
    keyword arguments on to [Logger._log], which has no [error]
    parameter, so the call raises [TypeError]. *)
Definition logger_refuses_keyword (msg error : string) : outcome unit :=
  Raises "Logger._log() got an unexpected keyword argument 'error'".

Definition tools_return (i : nat) (tool : string) : outcome json :=
  Returns (JArr []).

Definition claude_fails (messages : list json) : outcome string :=
  Raises "overloaded".

(** An intent analysis without the [requires_k8s] entry. *)
Definition intent_plain (user_message : string) (conversation_history : list json)
  : outcome IntentAnalysis :=
  Returns (mkIntentAnalysis None (Some "General inquiry") (Some []) None).

End Workflow.

(** ** chat_service.py *)
Module Chat.
Import Models.

Record Conversation : Type := mkConversation {
  id : string;
  title : option string;
  session_id : string;
  messages : list ChatMessage;
  created_at : Z;
  updated_at : Z;
  metadata : option json
}.

Inductive exn : Type :=
| ValidationError (model : string) (missing : list string).

Inductive result (A : Type) : Type :=
| Ok (a : A)
| Raise (e : exn).
Arguments Ok {A} a.
Arguments Raise {A} e.

Definition missing_field {A : Type} (name : string) (o : option A) : list string :=
  match o with Some _ => [] | None => [name] end.

(** The pydantic constructor of [Conversation]: a keyword argument that a
    call leaves out is [None] here. [title], [messages] and [metadata]
    have defaults; [id], [session_id], [created_at] and [updated_at] are
    declared without one and are required. *)
Definition Conversation_init (id : option string) (title : option string)
    (session_id : option string) (messages : option (list ChatMessage))
    (created_at updated_at : option Z) (metadata : option json)
  : result Conversation :=
  match id, session_id, created_at, updated_at with
  | Some i, Some s, Some c, Some u =>
      Ok (mkConversation i title s (default [] messages) c u metadata)
  | _, _, _, _ =>
      Raise (ValidationError "Conversation"
               (missing_field "id" id ++ missing_field "session_id" session_id
                ++ missing_field "created_at" created_at
                ++ missing_field "updated_at" updated_at))
  end.

(** The service object, with the number of clock readings and of UUIDs
    generated so far. *)
Record State : Type := mkState {
  conversations : gmap string Conversation;
  clock_reads : nat;
  uuids_drawn : nat
}.

Definition M (A : Type) : Type := State -> result A * State.

Definition ret {A : Type} (a : A) : M A := fun st => (Ok a, st).

Definition bind {A B : Type} (m : M A) (k : A -> M B) : M B :=
  fun st =>
    match m st with
    | (Ok a, st') => k a st'
    | (Raise e, st') => (Raise e, st')
    end.

Definition lift {A : Type} (r : result A) : M A := fun st => (r, st).

Notation "'let*' x ':=' m 'in' k" := (bind m (fun x => k))
  (at level 10, x name, m at level 100, k at level 200).

Definition with_conversations
    (f : gmap string Conversation -> gmap string Conversation) : M unit :=
  fun st => (Ok tt, mkState (f (conversations st)) (clock_reads st) (uuids_drawn st)).

Definition append_message (m : ChatMessage) (c : Conversation) : Conversation :=
  mkConversation (id c) (title c) (session_id c) (messages c ++ [m])
    (created_at c) (updated_at c) (metadata c).

Definition set_updated_at (t : Z) (c : Conversation) : Conversation :=
  mkConversation (id c) (title c) (session_id c) (messages c)
    (created_at c) t (metadata c).

Section Service.
(** The environment: successive readings of [datetime.now()],
    successive values of [uuid.uuid4()], and [strftime] with the
    title's format. *)
Variable now_at : nat -> Z.
Variable uuid_at : nat -> string.
Variable strftime : Z -> string.

Definition datetime_now : M Z :=
  fun st => (Ok (now_at (clock_reads st)),
             mkState (conversations st) (S (clock_reads st)) (uuids_drawn st)).

Definition uuid4 : M string :=
  fun st => (Ok (uuid_at (uuids_drawn st)),
             mkState (conversations st) (clock_reads st) (S (uuids_drawn st))).

(** [create_conversation]: the constructor call passes [id], [title],
    [messages], [created_at] and [updated_at], and no [session_id]. *)
Definition create_conversation (title : option string) : M Conversation :=
  let* conversation_id := uuid4 in
  let* title' :=
    (if truthy_opt title then ret (default "" title)
     else let* t := datetime_now in ret ("Chat " +:+ strftime t)) in
  let* created := datetime_now in
  let* updated := datetime_now in
  let* conversation :=
    lift (Conversation_init (Some conversation_id) (Some title') None
            (Some []) (Some created) (Some updated) None) in
  let* _ := with_conversations (insert conversation_id conversation) in
  ret conversation.

Definition get_conversation (conversation_id : string) : M Conversation :=
  fun st =>
    match conversations st !! conversation_id with
    | None => create_conversation None st
    | Some c => (Ok c, st)
    end.

(** [add_message]. The conversation object it mutates is the one that
    [get_conversation] returned: the entry under [conversation_id] when
    there was one, the entry under the new conversation's own id
    otherwise. *)
Definition add_message (conversation_id : string) (role : MessageRole)
    (content : string) : M ChatMessage :=
  fun st =>
    let known := bool_decide (is_Some (conversations st !! conversation_id)) in
    (let* conversation := get_conversation conversation_id in
     let key := if known then conversation_id else id conversation in
     let* i := uuid4 in
     let* ts := datetime_now in
     let message := mkChatMessage i role content ts None None None in
     let* _ := with_conversations (alter (append_message message) key) in
     let* t := datetime_now in
     let* _ := with_conversations (alter (set_updated_at t) key) in
     ret message) st.
End Service.

(** *** Sample environment *)
Definition empty_state : State := mkState ∅ 0 0.

Definition sample_now (n : nat) : Z := 1000.

Definition sample_uuid (n : nat) : string := "uuid-" +:+ str_of_nat n.

Definition sample_strftime (t : Z) : string := "2024-01-01 00:00".

End Chat.

(** ** What a turn receives and yields *)
Module GooseStream.
Import Models Goose.

(** The text fragments the loop of [send_message] receives before it
    stops at the first [message_complete] event. *)
Fixpoint deltas_before_complete (evs : list GooseEvent) : list string :=
  match evs with
  | [] => []
  | ev :: evs' =>
      if String.eqb (type ev) "message_complete" then []
      else if String.eqb (type ev) "text_delta"
           then ev_content ev :: deltas_before_complete evs'
      else deltas_before_complete evs'
  end.

(** The [delta] entries of the [message_delta] events of a turn. *)
Fixpoint event_deltas (out : list Event) : list string :=
  match out with
  | [] => []
  | MessageDelta d _ _ :: out' => d :: event_deltas out'
  | _ :: out' => event_deltas out'
  end.

(** Python's [+=] over the fragments, from the empty string. *)
Definition joined (l : list string) : string := foldr String.append "" l.

(** The events up to and including the first [message_complete]. *)
Fixpoint until_complete (evs : list GooseEvent) : list GooseEvent :=
  match evs with
  | [] => []
  | ev :: evs' =>
      if String.eqb (type ev) "message_complete" then [ev]
      else ev :: until_complete evs'
  end.

(** A stream with a tool call, its successful result that still holds an
    error text, and a completion. *)
Definition stream_with_tool (h : handle) (message : string) : upstream :=
  mkUpstream
    [ mkGooseEvent "tool_call" "" "get_pods" [] JNull true None;
      mkGooseEvent "tool_result" "" "get_pods" [] (JArr []) true (Some "stale");
      text_delta_event "No pods.";
      message_complete_event ]
    Exhausted.

(** A stream cut after its first [message_complete] event, if it has one. *)
Definition truncate_upstream (u : upstream) : upstream :=
  if has_complete (items u) then mkUpstream (until_complete (items u)) Exhausted
  else u.

End GooseStream.

(** ** goose_chat.py: the REST endpoints over the session service *)
Module GooseApi.
Import Models Goose.

(** What an endpoint gives back: its return value, or the [HTTPException]
    it raises. *)
Inductive http (A : Type) : Type :=
| Ok200 (a : A)
| HTTPException (status_code : nat) (detail : string).
Arguments Ok200 {A} a.
Arguments HTTPException {A} status_code detail.

(** The dictionary returned by [send_message_to_session]. *)
Record MessageReply : Type := mkMessageReply {
  reply_content : string;
  reply_tool_calls : list ToolCall;
  reply_tool_results : list ToolResult;
  reply_session_id : string
}.

(** The [async for] loop of [send_message_to_session] over the events of
    the turn: it stops at [message_complete], raises at [error], and
    returns what it gathered when the events run out. *)
Fixpoint collect (events : list Event) (session_id final_content : string)
    (tool_calls : list ToolCall) (tool_results : list ToolResult)
  : http MessageReply :=
  match events with
  | [] => Ok200 (mkMessageReply final_content tool_calls tool_results session_id)
  | event :: events' =>
      match event with
      | MessageDelta delta _ _ =>
          collect events' session_id (final_content +:+ delta) tool_calls tool_results
      | ToolCallEvent tool_call _ =>
          collect events' session_id final_content (tool_calls ++ [tool_call]) tool_results
      | ToolResultEvent tool_result _ =>
          collect events' session_id final_content tool_calls (tool_results ++ [tool_result])
      | MessageComplete _ _ _ =>
          Ok200 (mkMessageReply final_content tool_calls tool_results session_id)
      | Error e _ => HTTPException 500 e
      | SessionStart _ =>
          collect events' session_id final_content tool_calls tool_results
      end
  end.

Section Endpoints.
Variable now_at : nat -> Z.
Variable uuid_at : nat -> string.
Variable goose_session_timeout : Z.
Variable close_of : handle -> option string.
Variable stream_of : handle -> string -> upstream.

(** [send_message_to_session]. The generator does nothing after a
    terminal event, so the loop that stops there sees the same events and
    leaves the same store as a full run of [send_message]. *)
Definition send_message_to_session (session_id message : string)
  : M (http MessageReply) :=
  let* session_data := get_session now_at goose_session_timeout close_of session_id in
  match session_data with
  | None => ret (HTTPException 404 "Session not found")
  | Some _ =>
      let* events := send_message now_at uuid_at goose_session_timeout close_of
                       stream_of session_id message in
      ret (collect events session_id "" [] [])
  end.

(** [get_goose_session]: the session's fields, or 404. *)
Definition get_goose_session (session_id : string) : M (http GooseSessionData) :=
  let* session_data := get_session now_at goose_session_timeout close_of session_id in
  match session_data with
  | None => ret (HTTPException 404 "Session not found")
  | Some s => ret (Ok200 s)
  end.

(** [close_goose_session]. *)
Definition close_goose_session (session_id : string) : M (http string) :=
  let* success := close_session close_of session_id in
  if success then ret (Ok200 "Session closed successfully")
  else ret (HTTPException 404 "Session not found").
End Endpoints.

End GooseApi.

(** ** Reading an insertion-ordered dictionary *)
Module Dict.

(** [d.get(k)] on a dictionary kept as its list of items. *)
Fixpoint dict_lookup (d : list (string * json)) (k : string) : option json :=
  match d with
  | [] => None
  | (k', v) :: d' => if String.eqb k' k then Some v else dict_lookup d' k
  end.

End Dict.

(** ** anthropic_service.py *)
Module Anthropic.
Import Models.

(** [role.value]. *)
Definition role_value (r : MessageRole) : string :=
  match r with USER => "user" | ASSISTANT => "assistant" | SYSTEM => "system" end.

(** System messages are skipped; the others keep their order. *)
Fixpoint _convert_messages_to_anthropic_format (messages : list ChatMessage)
  : list (string * string) :=
  match messages with
  | [] => []
  | msg :: messages' =>
      match role msg with
      | SYSTEM => _convert_messages_to_anthropic_format messages'
      | _ => (role_value (role msg), content msg)
               :: _convert_messages_to_anthropic_format messages'
      end
  end.

(** The text stream of a streaming completion: the fragments delivered,
    and how the iteration ends. *)
Record text_stream : Type := mkTextStream {
  fragments : list string;
  stream_ending : Goose.stream_end
}.

Section Client.
(** The environment: the Anthropic client ([messages.create] gives the
    texts of the content blocks, [messages.stream] the text stream), both
    called with the system text and the converted messages, and the text
    of [_get_default_system_prompt], on which nothing below depends. *)
Variable messages_create : string -> list (string * string) -> outcome (list string).
Variable messages_stream : string -> list (string * string) -> text_stream.
Variable default_system_prompt : string.

Definition system_message (system_prompt : option string) : string :=
  if truthy_opt system_prompt then default "" system_prompt
  else default_system_prompt.

(** [get_chat_completion]: the handler logs and raises again. *)
Definition get_chat_completion (messages : list ChatMessage)
    (system_prompt : option string) : outcome string :=
  match messages_create (system_message system_prompt)
          (_convert_messages_to_anthropic_format messages) with
  | Returns response_content =>
      Returns (match response_content with [] => "" | text :: _ => text end)
  | Raises e => Raises e
  end.

(** [stream_chat_completion]: the chunks yielded. Empty fragments are
    skipped; an exception is turned into a last chunk. *)
Definition stream_chat_completion (messages : list ChatMessage)
    (system_prompt : option string) : list string :=
  let stream := messages_stream (system_message system_prompt)
                  (_convert_messages_to_anthropic_format messages) in
  List.filter truthy (fragments stream)
  ++ match stream_ending stream with
     | Goose.Exhausted => []
     | Goose.Raised e => ["Error: " +:+ e]
     end.
End Client.

End Anthropic.

(** ** mcp_client.py, of the application and of the extension *)
Module McpClient.
Import Dict.

Section Client.
(** The environment: the POST of a [tools/call] request, which gives the
    decoded body of a JSON-RPC response, an object, or raises (transport
    error, error status, undecodable body); and the [str()] of a value. *)
Variable post_tools_call : string -> list (string * json) -> outcome (list (string * json)).
Variable str_of : json -> string.

Definition error_dict (e : string) : json := JObj [("error", JStr e)].

(** The [try] body of the application's [call_tool]: an error member
    makes it raise. *)
Definition call_tool_body (tool_name : string) (arguments : list (string * json))
  : outcome json :=
  match post_tools_call tool_name arguments with
  | Raises e => Raises e
  | Returns result =>
      match dict_lookup result "result" with
      | Some r => Returns r
      | None =>
          match dict_lookup result "error" with
          | Some err => Raises ("MCP tool error: " +:+ str_of err)
          | None => Returns (error_dict "Unexpected response format")
          end
      end
  end.

(** The application's [call_tool]: every exception becomes an error
    dictionary. *)
Definition call_tool (tool_name : string) (arguments : list (string * json)) : json :=
  match call_tool_body tool_name arguments with
  | Returns r => r
  | Raises e => error_dict e
  end.

(** The extension's [call_tool]: an error member is returned as an error
    dictionary without raising. *)
Definition extension_call_tool (tool_name : string) (arguments : list (string * json))
  : json :=
  match post_tools_call tool_name arguments with
  | Raises e => error_dict e
  | Returns result =>
      match dict_lookup result "result" with
      | Some r => r
      | None =>
          match dict_lookup result "error" with
          | Some err => error_dict ("MCP tool error: " +:+ str_of err)
          | None => error_dict "Unexpected response format"
          end
      end
  end.

Definition get_cluster_info : json := call_tool "cluster_info" [].

(** [get_pods], [get_services] and [get_deployments] pass the namespace
    only when it is not empty. *)
Definition namespace_arguments (namespace : option string) : list (string * json) :=
  if truthy_opt namespace then [("namespace", JStr (default "" namespace))] else [].

Definition get_pods (namespace : option string) : json :=
  call_tool "get_pods" (namespace_arguments namespace).
End Client.

End McpClient.

(** ** activities.py *)
Module Activities.
Import Models Dict.

Inductive exn : Type :=
| AttributeError (attribute : string)
| KeyError (key : string)
| ValidationError (model : string) (fields : list string)
| CompletionError (msg : string).

Inductive result (A : Type) : Type :=
| Ok (a : A)
| Raise (e : exn).
Arguments Ok {A} a.
Arguments Raise {A} e.

(** The three dictionaries [analyze_user_intent] can return: the decoded
    answer of the completion, the keyword fallback (intent "General
    inquiry", no tools, confidence 0.5) and the error result
    ([requires_k8s] false, intent "Error in analysis", no tools,
    confidence 0.0). *)
Inductive analysis : Type :=
| Decoded (v : json)
| KeywordFallback (requires_k8s : bool)
| ErrorInAnalysis.

Definition invalid {A : Type} (name : string) (o : option A) : list string :=
  match o with Some _ => [] | None => [name] end.

Definition validate_str (v : json) : option string :=
  match v with JStr s => Some s | _ => None end.

Definition validate_role (v : json) : option MessageRole :=
  match v with
  | JStr s =>
      if String.eqb s "user" then Some USER
      else if String.eqb s "assistant" then Some ASSISTANT
      else if String.eqb s "system" then Some SYSTEM
      else None
  | _ => None
  end.

Definition validate_metadata (v : json) : option (option json) :=
  match v with
  | JNull => Some None
  | JObj _ => Some (Some v)
  | _ => None
  end.

(** [s in text] for strings. *)
Fixpoint contains (needle text : string) : bool :=
  String.prefix needle text
  || match text with
     | EmptyString => false
     | String _ text' => contains needle text'
     end.

Section Activities.
(** The environment: how the [datetime] field reads a value that is not
    [None] (an ISO string, a number), [json.loads], [str.lower], the two
    prompt texts of [analyze_user_intent] (on which nothing below
    depends), and the completion of the Anthropic service. *)
Variable datetime_of : json -> option Z.
Variable json_loads : string -> option json.
Variable lower : string -> string.
Variable analysis_prompt : string -> list json -> string.
Variable analysis_system_prompt : string.
Variable get_chat_completion : list ChatMessage -> option string -> outcome string.

(** [timestamp: datetime] has no default and is not optional: [None] is
    refused. *)
Definition validate_datetime (v : json) : option Z :=
  match v with JNull => None | _ => datetime_of v end.

(** The constructor [ChatMessage(id=, role=, content=, timestamp=,
    metadata=)] on the values it is given. *)
Definition ChatMessage_validate (id role content timestamp metadata : json)
  : result ChatMessage :=
  match validate_str id, validate_role role, validate_str content,
        validate_datetime timestamp, validate_metadata metadata with
  | Some i, Some r, Some c, Some t, Some m =>
      Ok (mkChatMessage i r c t m None None)
  | i, r, c, t, m =>
      Raise (ValidationError "ChatMessage"
               (invalid "id" i ++ invalid "role" r ++ invalid "content" c
                ++ invalid "timestamp" t ++ invalid "metadata" m))
  end.

(** One element of the comprehension of [get_claude_response]. *)
Definition to_chat_message (msg : json) : result ChatMessage :=
  match msg with
  | JObj d =>
      match dict_lookup d "role" with
      | None => Raise (KeyError "role")
      | Some role =>
          match dict_lookup d "content" with
          | None => Raise (KeyError "content")
          | Some content =>
              match dict_lookup d "timestamp" with
              | None => Raise (KeyError "timestamp")
              | Some timestamp =>
                  ChatMessage_validate
                    (default (JStr "") (dict_lookup d "id")) role content timestamp
                    (default JNull (dict_lookup d "metadata"))
              end
          end
      end
  | _ => Raise (AttributeError "get")
  end.

Fixpoint to_chat_messages (messages : list json) : result (list ChatMessage) :=
  match messages with
  | [] => Ok []
  | msg :: messages' =>
      match to_chat_message msg with
      | Raise e => Raise e
      | Ok m =>
          match to_chat_messages messages' with
          | Raise e => Raise e
          | Ok ms => Ok (m :: ms)
          end
      end
  end.

(** [get_claude_response]: its handler logs and raises again. *)
Definition get_claude_response (messages : list json) (system_prompt : option string)
  : result string :=
  match to_chat_messages messages with
  | Raise e => Raise e
  | Ok chat_messages =>
      match get_chat_completion chat_messages system_prompt with
      | Returns response => Ok response
      | Raises e => Raise (CompletionError e)
      end
  end.

(** [analyze_user_intent]: every exception of the [try] body gives the
    error result. *)
Definition analyze_user_intent (message : string) (conversation_context : list json)
  : analysis :=
  match ChatMessage_validate (JStr "analysis") (JStr "user")
          (JStr (analysis_prompt message conversation_context)) JNull JNull with
  | Raise _ => ErrorInAnalysis
  | Ok analysis_message =>
      match get_chat_completion [analysis_message] (Some analysis_system_prompt) with
      | Raises _ => ErrorInAnalysis
      | Returns response =>
          match json_loads response with
          | Some intent_data => Decoded intent_data
          | None =>
              KeywordFallback
                (contains "kubectl" (lower message)
                 || contains "pod" (lower message)
                 || contains "deployment" (lower message))
          end
      end
  end.
End Activities.

End Activities.

(** ** chat_service.py: processing a user message *)
Module ChatTurn.
Import Models Chat.

(** What iterating a generator gives: the chunks yielded, and the
    exception that ended it, if any. *)
Definition generated : Type := (list string * option exn)%type.

Section Service.
(** The environment: the clock, the UUID source and [strftime] of the
    service; the text stream of the Anthropic client and its default
    system prompt; [str(e)]; whether a Temporal client is connected, and
    what the Temporal path yields and does to the store. *)
Variable now_at : nat -> Z.
Variable uuid_at : nat -> string.
Variable strftime : Z -> string.
Variable messages_stream : string -> list (string * string) -> Anthropic.text_stream.
Variable default_system_prompt : string.
Variable str_of_exn : exn -> string.
Variable temporal_client : bool.
Variable _process_with_temporal : string -> Conversation -> State -> list string * State.

(** [_process_directly]: the chunks of the completion are yielded as they
    come and added up; the assistant message is stored afterwards, and a
    failure to store it is yielded as a last chunk. *)
Definition _process_directly (message : string) (conversation : Conversation)
  : State -> list string * State :=
  fun st =>
    let chunks :=
      Anthropic.stream_chat_completion messages_stream default_system_prompt
        (messages conversation) None in
    let full_response := fold_left String.append chunks "" in
    match add_message now_at uuid_at strftime (id conversation) ASSISTANT
            full_response st with
    | (Ok _, st') => (chunks, st')
    | (Raise e, st') =>
        (chunks ++ ["Direct processing error: " +:+ str_of_exn e], st')
    end.

(** [process_user_message]. The conversation object is the entry under
    the given id when there was one, and the entry under its own id when
    it was created; the path it is handed to sees it with the user
    message already appended. Both paths catch their own exceptions. *)
Definition process_user_message (message : string) (conversation_id : option string)
  : State -> generated * State :=
  fun st =>
    let given := default "" conversation_id in
    let known := bool_decide (is_Some (conversations st !! given)) in
    let got :=
      if truthy_opt conversation_id
      then get_conversation now_at uuid_at strftime given st
      else create_conversation now_at uuid_at strftime None st in
    match got with
    | (Raise e, st1) => (([], Some e), st1)
    | (Ok conversation, st1) =>
        let conversation_id' :=
          if truthy_opt conversation_id then given else id conversation in
        let key :=
          if truthy_opt conversation_id && known then given else id conversation in
        match add_message now_at uuid_at strftime conversation_id' USER message st1 with
        | (Raise e, st2) => (([], Some e), st2)
        | (Ok _, st2) =>
            let conversation_now := default conversation (conversations st2 !! key) in
            let (chunks, st3) :=
              if temporal_client
              then _process_with_temporal message conversation_now st2
              else _process_directly message conversation_now st2 in
            ((chunks, None), st3)
        end
    end.
End Service.

(** *** Sample environment *)
Definition sample_conversation : Conversation :=
  mkConversation "c1" (Some "Chat") "s1" [] 0 0 None.

Definition sample_state : State := mkState {[ "c1" := sample_conversation ]} 0 0.

Definition stream_fails (system : string) (messages : list (string * string))
  : Anthropic.text_stream :=
  Anthropic.mkTextStream ["Check"; ""; "ing"] (Goose.Raised "overloaded").

Definition str_validation (e : exn) : string := "validation error".

Definition no_temporal (message : string) (c : Conversation) (st : State)
  : list string * State := ([], st).

End ChatTurn.

(** * Properties *)

(** ** The command classifier and the gate of [execute] *)
Module KubectlProofs.
Import Kubectl.

Lemma append_assoc (a b c : string) : (a +:+ b) +:+ c = a +:+ b +:+ c.
Proof.
  induction a as [|x a IH]; [reflexivity|].
  change (String x ((a +:+ b) +:+ c) = String x (a +:+ b +:+ c)).
  by rewrite IH.
Qed.

Lemma write_not_dangerous (name : string) :
  name ∈ WRITE_COMMANDS → name ∉ DANGEROUS_COMMANDS.
Proof.
  assert (H : WRITE_COMMANDS ## DANGEROUS_COMMANDS)
    by (refine (bool_decide_unpack _ _); vm_compute; exact I).
  intros Hw Hd. exact (H name Hw Hd).
Qed.

Lemma write_not_safe (name : string) :
  name ∈ WRITE_COMMANDS → name ∉ SAFE_COMMANDS.
Proof.
  assert (H : WRITE_COMMANDS ## SAFE_COMMANDS)
    by (refine (bool_decide_unpack _ _); vm_compute; exact I).
  intros Hw Hs. exact (H name Hw Hs).
Qed.

(** C1. A name of [DANGEROUS_COMMANDS] gets the dangerous verdict
    ([allowed] false, the "is dangerous" reason) for either value of
    [confirm]; the test comes first, so the verdict is the same whatever
    the safe and write sets contain. *)
Theorem dangerous_always_denied (name : string) (confirm : bool) :
  name ∈ DANGEROUS_COMMANDS →
  _check_command_security name confirm = dangerous_verdict name
  ∧ allowed (_check_command_security name confirm) = false
  ∧ ∀ safe write : gset string,
      check_command_security_with safe write DANGEROUS_COMMANDS name confirm
      = dangerous_verdict name.
Proof.
  intros Hd.
  assert (Hgen : ∀ safe write : gset string,
             check_command_security_with safe write DANGEROUS_COMMANDS name confirm
             = dangerous_verdict name).
  { intros safe write. unfold check_command_security_with.
    by rewrite bool_decide_eq_true_2. }
  split; [apply Hgen|]. split; [|exact Hgen].
  unfold _check_command_security. by rewrite Hgen.
Qed.

Lemma dangerous_always_denied_witness :
  _check_command_security "delete" true = dangerous_verdict "delete"
  ∧ allowed (_check_command_security "delete" true) = false.
Proof.
  assert (Hd : "delete" ∈ DANGEROUS_COMMANDS)
    by (refine (bool_decide_unpack _ _); vm_compute; exact I).
  destruct (dangerous_always_denied "delete" true Hd) as (H1 & H2 & _).
  exact (conj H1 H2).
Defined.

(** C2. A name of [WRITE_COMMANDS] is refused with the confirmation
    reason when [confirm] is false and allowed when it is true. *)
Theorem write_needs_confirmation (name : string) :
  name ∈ WRITE_COMMANDS →
  _check_command_security name false = needs_confirmation_verdict name
  ∧ allowed (_check_command_security name false) = false
  ∧ reason (_check_command_security name false)
    = ("Command '" +:+ name +:+ "' modifies cluster state and ")
      +:+ "requires confirmation" +:+ " (set confirm=true)"
  ∧ _check_command_security name true
    = mkSecurityCheck true "Command is safe to execute" "confirmed_write".
Proof.
  intros Hw.
  pose proof (write_not_dangerous name Hw) as Hd.
  pose proof (write_not_safe name Hw) as Hs.
  unfold _check_command_security, check_command_security_with.
  rewrite (bool_decide_eq_false_2 _ Hd), (bool_decide_eq_true_2 _ Hw),
    (bool_decide_eq_false_2 _ Hs). cbn [andb orb negb].
  repeat split. cbn [reason needs_confirmation_verdict].
  by rewrite !append_assoc.
Qed.

Lemma write_needs_confirmation_witness :
  allowed (_check_command_security "scale" false) = false
  ∧ allowed (_check_command_security "scale" true) = true.
Proof.
  assert (Hw : "scale" ∈ WRITE_COMMANDS)
    by (refine (bool_decide_unpack _ _); vm_compute; exact I).
  destruct (write_needs_confirmation "scale" Hw) as (_ & H2 & _ & H4).
  split; [exact H2|]. rewrite H4. reflexivity.
Defined.

(** C3. A name in none of the three sets gets the unknown verdict, with
    [allowed] false, for either value of [confirm]. *)
Theorem unknown_fails_closed (name : string) (confirm : bool) :
  name ∉ SAFE_COMMANDS → name ∉ WRITE_COMMANDS → name ∉ DANGEROUS_COMMANDS →
  _check_command_security name confirm = unknown_verdict name
  ∧ allowed (_check_command_security name confirm) = false
  ∧ category (_check_command_security name confirm) = "unknown".
Proof.
  intros Hs Hw Hd.
  unfold _check_command_security, check_command_security_with.
  rewrite (bool_decide_eq_false_2 _ Hd), (bool_decide_eq_false_2 _ Hw),
    (bool_decide_eq_false_2 _ Hs). cbn [andb orb]. done.
Qed.

Lemma unknown_fails_closed_witness :
  _check_command_security "exec" true = unknown_verdict "exec".
Proof.
  refine (proj1 (unknown_fails_closed "exec" true _ _ _));
    refine (bool_decide_unpack _ _); vm_compute; exact I.
Defined.

(** C4, as stated, fails: the empty command is refused by the classifier
    (the unknown verdict), yet [execute] answers "Command is required",
    which is not the classifier's reason; and with kubectl missing a
    dangerous command is answered "kubectl is not available". *)
Lemma execute_error_not_always_denial_reason :
  allowed (_check_command_security "" false) = false
  ∧ error (execute probe_ready run_fine loads_empty_object strip_id
             sample_tool "" None None None false).1 = "Command is required"
  ∧ error (execute probe_ready run_fine loads_empty_object strip_id
             sample_tool "" None None None false).1
    ≠ reason (_check_command_security "" false)
  ∧ allowed (_check_command_security "delete" false) = false
  ∧ error (execute probe_missing run_fine loads_empty_object strip_id
             sample_tool "delete" None None None false).1 = "kubectl is not available".
Proof. vm_compute. repeat split; discriminate. Qed.

Section Gate.
Variable probe_result : ProcResult.
Variable command_result : list string → ProcResult.
Variable json_loads : string → option json.
Variable strip : string → string.

Local Abbreviation execute := (execute probe_result command_result json_loads strip).
Local Abbreviation check_kubectl_available :=
  (check_kubectl_available probe_result json_loads).

(** The calls made by [execute], by cases on its three guards. *)
Lemma execute_calls self command args ns output confirm :
  (execute self command args ns output confirm).2
  = if negb (truthy command) then []
    else if negb (available check_kubectl_available) then [ProbeCall]
    else if negb (allowed (_check_command_security command confirm)) then [ProbeCall]
    else [ProbeCall; ExecuteCommandCall (build_cmd_parts self command args ns output)].
Proof.
  unfold Kubectl.execute.
  destruct (negb (truthy command)); [done|].
  destruct (negb (available check_kubectl_available)); [done|].
  by destruct (negb (allowed (_check_command_security command confirm))).
Qed.

(** C4, amended. [_execute_command] is called only when the classifier
    allows the command, and then on the built argument vector; on a
    disallowed verdict the result has [success] false and no command is
    executed; its error is the classifier's reason whenever the command
    is not empty and the availability probe succeeds. *)
Theorem execute_gated_by_security_check self command args ns output confirm :
  let r := execute self command args ns output confirm in
  let check := _check_command_security command confirm in
  (∀ argv, ExecuteCommandCall argv ∈ r.2 →
     allowed check = true ∧ argv = build_cmd_parts self command args ns output)
  ∧ (allowed check = false →
     success r.1 = false
     ∧ (∀ argv, ExecuteCommandCall argv ∉ r.2)
     ∧ (truthy command = true → available check_kubectl_available = true →
        error r.1 = reason check ∧ security_check r.1 = Some check)).
Proof.
  intros r check. subst r check. split.
  - intros argv. rewrite execute_calls.
    destruct (negb (truthy command)); [by intros ?%elem_of_nil|].
    destruct (negb (available check_kubectl_available)).
    { intros [?|?%elem_of_nil]%elem_of_cons; done. }
    destruct (allowed (_check_command_security command confirm)); cbn [negb].
    + intros [?|[?|?%elem_of_nil]%elem_of_cons]%elem_of_cons; [done| |done].
      split; [done|congruence].
    + intros [?|?%elem_of_nil]%elem_of_cons; done.
  - intros Hdenied. split; [|split].
    + unfold Kubectl.execute.
      destruct (negb (truthy command)); [done|].
      destruct (negb (available check_kubectl_available)); [done|].
      by rewrite Hdenied.
    + intros argv. rewrite execute_calls, Hdenied. cbn [negb].
      destruct (negb (truthy command)); [by intros ?%elem_of_nil|].
      destruct (negb (available check_kubectl_available));
        intros [?|?%elem_of_nil]%elem_of_cons; done.
    + intros Hcmd Havail. unfold Kubectl.execute.
      by rewrite Hcmd, Havail, Hdenied.
Qed.

(** The gate does open: an allowed, non-empty command with kubectl
    available is run, once, on the built argument vector. *)
Lemma execute_allowed_runs self command args ns output confirm :
  truthy command = true → available check_kubectl_available = true →
  allowed (_check_command_security command confirm) = true →
  (execute self command args ns output confirm).2
  = [ProbeCall; ExecuteCommandCall (build_cmd_parts self command args ns output)].
Proof. intros Hc Ha Hs. by rewrite execute_calls, Hc, Ha, Hs. Qed.
End Gate.

Lemma execute_gated_by_security_check_witness :
  let r := execute probe_ready run_fine loads_empty_object strip_id
             sample_tool "delete" (Some ["pod"; "web"]) None None true in
  success r.1 = false
  ∧ error r.1 = "Command 'delete' is dangerous and not allowed for safety"
  ∧ r.2 = [ProbeCall].
Proof.
  intros r.
  assert (Hd : allowed (_check_command_security "delete" true) = false)
    by (vm_compute; reflexivity).
  destruct (execute_gated_by_security_check probe_ready run_fine loads_empty_object
              strip_id sample_tool "delete" (Some ["pod"; "web"]) None None true)
    as [_ Hgate].
  destruct (Hgate Hd) as (Hs & _ & Herr).
  destruct Herr as [He _]; [vm_compute; reflexivity | vm_compute; reflexivity |].
  split; [exact Hs|]. split; [|vm_compute; reflexivity].
  etrans; [exact He|]. vm_compute; reflexivity.
Defined.

End KubectlProofs.

(** ** Sessions and the streamed turn *)
Module GooseProofs.
Import Models Goose.

(** C5, as stated, fails: on a service with no sessions, [send_message]
    for an unknown id yields a single error event, no [session_start],
    and creates no session. *)
Lemma send_message_creates_no_session :
  (send_message clock_early sample_uuid 3600 close_returns stream_completes
     "nope" "hello" empty_state).1
  = [Error "Session nope not found or expired" None]
  ∧ sessions (send_message clock_early sample_uuid 3600 close_returns stream_completes
                "nope" "hello" empty_state).2 = ∅.
Proof. split; vm_compute; reflexivity. Qed.

(** C6, as stated, fails: when the Goose stream ends without a
    [message_complete] event and without raising, the turn yields
    [session_start] and one [message_delta], and no terminal event. *)
Lemma send_message_no_terminal_on_exhaustion :
  (send_message clock_early sample_uuid 3600 close_returns stream_stops
     "s1" "hello" sample_state).1
  = [SessionStart "s1"; MessageDelta "Hel" "uuid-1" "s1"]
  ∧ filter (λ e, is_terminal e = true)
      (send_message clock_early sample_uuid 3600 close_returns stream_stops
         "s1" "hello" sample_state).1 = [].
Proof. split; vm_compute; reflexivity. Qed.

(** C9, as stated, fails: when [close] of the Goose session raises,
    [get_session] on the expired session returns [None] but the entry
    stays, and the next [list_sessions] still returns the session. *)
Lemma get_session_expired_close_fails :
  let r := get_session clock_late 3600 close_raises "s1" sample_state in
  r.1 = None
  ∧ sessions r.2 !! "s1" = Some sample_session
  ∧ (list_sessions clock_late 3600 close_raises r.2).1 = [sample_session].
Proof. vm_compute. repeat split; reflexivity. Qed.

Section Turn.
Variable now_at : nat → Z.
Variable uuid_at : nat → string.
Variable goose_session_timeout : Z.
Variable close_of : handle → option string.
Variable stream_of : handle → string → upstream.

Local Abbreviation expired_at := (Goose.expired_at now_at goose_session_timeout).
Local Abbreviation close_succeeds := (Goose.close_succeeds close_of).
Local Abbreviation close_session := (Goose.close_session close_of).
Local Abbreviation get_session :=
  (Goose.get_session now_at goose_session_timeout close_of).
Local Abbreviation list_sessions :=
  (Goose.list_sessions now_at goose_session_timeout close_of).
Local Abbreviation stream_loop := (Goose.stream_loop now_at uuid_at).
Local Abbreviation send_message :=
  (Goose.send_message now_at uuid_at goose_session_timeout close_of stream_of).

(** *** Closing and looking up *)

Lemma close_session_sessions sid st :
  sessions (close_session sid st).2 = sessions st
  ∨ sessions (close_session sid st).2 = delete sid (sessions st).
Proof.
  unfold Goose.close_session.
  destruct (sessions st !! sid) as [s|]; [|by left].
  destruct (goose_session s) as [h|]; [|by right].
  destruct (close_of h); [by left | by right].
Qed.

Lemma close_session_subseteq sid st :
  sessions (close_session sid st).2 ⊆ sessions st.
Proof.
  destruct (close_session_sessions sid st) as [-> | ->]; [done|].
  apply delete_subseteq.
Qed.

Lemma close_session_released sid st s :
  sessions st !! sid = Some s → close_succeeds s = true →
  (close_session sid st).1 = true
  ∧ sessions (close_session sid st).2 = delete sid (sessions st).
Proof.
  intros Hs Hc. unfold Goose.close_session, Goose.close_succeeds in *.
  rewrite Hs. destruct (goose_session s) as [h|]; [|done].
  by destruct (close_of h).
Qed.

Lemma close_session_calls sid st s :
  sessions st !! sid = Some s →
  close_calls (close_session sid st).2
  = close_calls st ++ match goose_session s with Some h => [h] | None => [] end.
Proof.
  intros Hs. unfold Goose.close_session. rewrite Hs.
  destruct (goose_session s) as [h|]; [|by rewrite app_nil_r].
  by destruct (close_of h).
Qed.

Lemma close_session_kept sid st s :
  sessions st !! sid = Some s → close_succeeds s = false →
  (close_session sid st).1 = false
  ∧ sessions (close_session sid st).2 = sessions st.
Proof.
  intros Hs Hc. unfold Goose.close_session, Goose.close_succeeds in *.
  rewrite Hs. destruct (goose_session s) as [h|]; [|done].
  by destruct (close_of h).
Qed.

Lemma is_session_expired_eq s st :
  _is_session_expired now_at goose_session_timeout s st = (expired_at st s, tick st).
Proof. reflexivity. Qed.

Lemma get_session_absent sid st :
  sessions st !! sid = None → get_session sid st = (None, st).
Proof. intros H. unfold Goose.get_session. by rewrite H. Qed.

Lemma get_session_live sid st s :
  sessions st !! sid = Some s → expired_at st s = false →
  get_session sid st = (Some s, tick st).
Proof.
  intros H He. unfold Goose.get_session. rewrite H.
  unfold bind. by rewrite is_session_expired_eq, He.
Qed.

Lemma get_session_expired sid st s :
  sessions st !! sid = Some s → expired_at st s = true →
  get_session sid st = (None, (close_session sid (tick st)).2).
Proof.
  intros H He. unfold Goose.get_session. rewrite H.
  unfold bind. rewrite is_session_expired_eq, He.
  by destruct (close_session sid (tick st)).
Qed.

(** [get_session] by cases: what it returns is the stored entry, and the
    store afterwards holds no entry it did not hold before. *)
Lemma get_session_cases sid st :
  (get_session sid st = (None, st) ∧ sessions st !! sid = None)
  ∨ (∃ s, sessions st !! sid = Some s ∧ expired_at st s = false
          ∧ get_session sid st = (Some s, tick st))
  ∨ (∃ s, sessions st !! sid = Some s ∧ expired_at st s = true
          ∧ get_session sid st = (None, (close_session sid (tick st)).2)).
Proof.
  destruct (sessions st !! sid) as [s|] eqn:H.
  - destruct (expired_at st s) eqn:He.
    + right; right. exists s. eauto using get_session_expired.
    + right; left. exists s. eauto using get_session_live.
  - left. eauto using get_session_absent.
Qed.

Lemma get_session_subseteq sid st :
  sessions (get_session sid st).2 ⊆ sessions st.
Proof.
  destruct (get_session_cases sid st)
    as [[-> _] | [(s & _ & _ & ->) | (s & _ & _ & ->)]]; [done..|].
  apply (close_session_subseteq sid (tick st)).
Qed.

(** *** The streaming loop *)

(** The shape of what the loop yields and what it does to the store: with
    a [message_complete] event in the stream, non-terminal events, then
    one [message_complete], and the assistant message appended; without
    one, non-terminal events, then an [error] if the stream raised, and
    the store untouched. *)
Lemma stream_loop_spec sid mid e evs :
  ∀ rc calls results st,
    ∃ pre, Forall (λ ev, is_terminal ev = false) pre ∧
      if has_complete evs then
        ∃ c am t,
          (stream_loop sid mid evs e rc calls results st).1
          = pre ++ [MessageComplete c mid sid]
          ∧ sessions (stream_loop sid mid evs e rc calls results st).2
            = alter (set_updated_at t) sid
                (alter (append_message am) sid (sessions st))
          ∧ role am = ASSISTANT ∧ content am = c
      else
        sessions (stream_loop sid mid evs e rc calls results st).2 = sessions st
        ∧ (stream_loop sid mid evs e rc calls results st).1
          = pre ++ match e with
                   | Exhausted => []
                   | Raised msg => [Error msg (Some sid)]
                   end.
Proof.
  induction evs as [|ev evs IH]; intros rc calls results st.
  { exists []. split; [constructor|]. cbn. by destruct e. }
  cbn [Goose.stream_loop has_complete existsb].
  destruct (String.eqb (type ev) "text_delta") eqn:E1.
  { apply String.eqb_eq in E1. rewrite E1. cbn [String.eqb Ascii.eqb Bool.eqb orb].
    unfold bind, ret.
    destruct (IH (rc +:+ ev_content ev) calls results st) as (pre & Hpre & H).
    destruct (stream_loop sid mid evs e (rc +:+ ev_content ev) calls results st)
      as [out st'].
    cbn [fst snd] in H |- *.
    exists (MessageDelta (ev_content ev) mid sid :: pre).
    split; [by constructor|].
    fold (has_complete evs). destruct (has_complete evs).
    - destruct H as (c & am & t & -> & ? & ? & ?). by exists c, am, t.
    - destruct H as [? ->]. done. }
  destruct (String.eqb (type ev) "tool_call") eqn:E2.
  { apply String.eqb_eq in E2. rewrite E2. cbn [String.eqb Ascii.eqb Bool.eqb orb].
    unfold bind, ret, uuid4.
    set (st1 := mkState _ _ _ _).
    set (d := mkToolCall _ _ _).
    destruct (IH rc (calls ++ [d]) results st1) as (pre & Hpre & H).
    destruct (stream_loop sid mid evs e rc (calls ++ [d]) results st1) as [out st'].
    cbn [fst snd] in H |- *.
    exists (ToolCallEvent d sid :: pre).
    split; [by constructor|].
    fold (has_complete evs). destruct (has_complete evs).
    - destruct H as (c & am & t & -> & ? & ? & ?). by exists c, am, t.
    - destruct H as [? ->]. done. }
  destruct (String.eqb (type ev) "tool_result") eqn:E3.
  { apply String.eqb_eq in E3. rewrite E3. cbn [String.eqb Ascii.eqb Bool.eqb orb].
    unfold bind, ret, uuid4.
    set (st1 := mkState _ _ _ _).
    set (d := mkToolResult _ _ _ _ _).
    destruct (IH rc calls (results ++ [d]) st1) as (pre & Hpre & H).
    destruct (stream_loop sid mid evs e rc calls (results ++ [d]) st1) as [out st'].
    cbn [fst snd] in H |- *.
    exists (ToolResultEvent d sid :: pre).
    split; [by constructor|].
    fold (has_complete evs). destruct (has_complete evs).
    - destruct H as (c & am & t & -> & ? & ? & ?). by exists c, am, t.
    - destruct H as [? ->]. done. }
  destruct (String.eqb (type ev) "message_complete") eqn:E4.
  { cbn [orb]. exists []. split; [constructor|].
    eexists _, _, _. cbn. split; [reflexivity|]. split; [reflexivity|]. done. }
  cbn [orb]. apply IH.
Qed.

(** *** [send_message] *)

Lemma send_message_missing sid message st :
  (get_session sid st).1 = None →
  send_message sid message st
  = ([Error ("Session " +:+ sid +:+ " not found or expired") None],
     (get_session sid st).2).
Proof.
  intros H. unfold Goose.send_message, bind.
  destruct (get_session sid st) as [[s|] st1]; [discriminate|done].
Qed.

(** On a live session the turn is [session_start] followed by the loop,
    started on the store where the session has the user message appended
    and [updated_at] set. *)
Lemma send_message_live sid message st s :
  (get_session sid st).1 = Some s →
  ∃ um t mid st2,
    role um = USER ∧ content um = message
    ∧ sessions st2
      = alter (set_updated_at t) sid (alter (append_message um) sid (sessions st))
    ∧ send_message sid message st
      = (SessionStart sid
           :: (stream_loop sid mid (items (goose_send_message stream_of s message))
                 (ending (goose_send_message stream_of s message)) "" [] [] st2).1,
         (stream_loop sid mid (items (goose_send_message stream_of s message))
            (ending (goose_send_message stream_of s message)) "" [] [] st2).2).
Proof.
  intros H.
  assert (Hst : sessions (get_session sid st).2 = sessions st).
  { destruct (get_session_cases sid st)
      as [[Hg _] | [(s' & _ & _ & Hg) | (s' & _ & _ & Hg)]];
      rewrite Hg in H |- *; [discriminate|done|discriminate]. }
  unfold Goose.send_message, bind.
  destruct (get_session sid st) as [[s'|] st1]; [|discriminate].
  cbn [fst snd] in H, Hst. injection H as ->.
  set (um := mkChatMessage (uuid_at (uuids_drawn st1)) USER message
               (now_at (clock_reads st1)) None None None).
  set (t := now_at (S (clock_reads st1))).
  exists um, t, (uuid_at (S (uuids_drawn st1))),
    (mkState (alter (set_updated_at t) sid (alter (append_message um) sid (sessions st1)))
       (S (S (clock_reads st1))) (S (S (uuids_drawn st1))) (close_calls st1)).
  split; [done|]. split; [done|]. split; [by rewrite <- Hst|].
  unfold uuid4, datetime_now, with_sessions, ret.
  cbn [sessions clock_reads uuids_drawn close_calls].
  fold um t.
  by destruct (Goose.stream_loop _ _ _ _ _ _ _ _ _ _).
Qed.

Lemma filter_nonterminal (pre : list Event) :
  Forall (λ e, is_terminal e = false) pre →
  filter (λ e, is_terminal e = true) pre = [].
Proof.
  induction 1 as [|e pre He _ IH]; [done|].
  rewrite filter_cons_False; [done|]. by rewrite He.
Qed.


(** The whole turn, by cases: a missing session, a live session whose
    stream completes, and a live session whose stream does not. *)
Lemma send_message_shape sid message st :
  let r := send_message sid message st in
  match (get_session sid st).1 with
  | None =>
      r.1 = [Error ("Session " +:+ sid +:+ " not found or expired") None]
      ∧ r.2 = (get_session sid st).2
  | Some s =>
      ∃ pre um t,
        Forall (λ e, is_terminal e = false) pre
        ∧ role um = USER ∧ content um = message
        ∧ if has_complete (items (goose_send_message stream_of s message)) then
            ∃ c mid, r.1 = SessionStart sid :: pre ++ [MessageComplete c mid sid]
          else
            sessions r.2
            = alter (set_updated_at t) sid (alter (append_message um) sid (sessions st))
            ∧ r.1 = SessionStart sid
                      :: pre ++ match ending (goose_send_message stream_of s message) with
                                | Exhausted => []
                                | Raised msg => [Error msg (Some sid)]
                                end
  end.
Proof.
  intros r. subst r.
  destruct ((get_session sid st).1) as [s|] eqn:Hg.
  - destruct (send_message_live sid message st s Hg)
      as (um & t & mid & st2 & Hrole & Hcontent & Hst2 & ->).
    destruct (stream_loop_spec sid mid
                (ending (goose_send_message stream_of s message))
                (items (goose_send_message stream_of s message)) "" [] [] st2)
      as (pre & Hpre & H).
    exists pre, um, t. split; [done|]. split; [done|]. split; [done|].
    cbn [fst snd].
    destruct (has_complete (items (goose_send_message stream_of s message))).
    + destruct H as (c & am & t' & -> & _). by exists c, mid.
    + destruct H as [-> ->]. by rewrite Hst2.
  - by rewrite (send_message_missing sid message st Hg).
Qed.

Lemma send_message_dom sid message st :
  dom (sessions (send_message sid message st).2) ⊆ dom (sessions st).
Proof.
  destruct ((get_session sid st).1) as [s|] eqn:Hg.
  - destruct (send_message_live sid message st s Hg)
      as (um & t & mid & st2 & _ & _ & Hst2 & ->).
    destruct (stream_loop_spec sid mid
                (ending (goose_send_message stream_of s message))
                (items (goose_send_message stream_of s message)) "" [] [] st2)
      as (pre & _ & H).
    cbn [snd].
    destruct (has_complete (items (goose_send_message stream_of s message))).
    + destruct H as (c & am & t' & _ & -> & _).
      by rewrite Hst2, !dom_alter_L.
    + destruct H as [-> _]. by rewrite Hst2, !dom_alter_L.
  - rewrite (send_message_missing sid message st Hg). cbn [snd].
    apply subseteq_dom, get_session_subseteq.
Qed.

(** C5, amended. [send_message] never adds a session to the store. When
    the id names no live session (absent from the store, or expired) the
    turn is the single event [error] "Session <id> not found or expired";
    when it names a live one, [session_start] is the first event. *)
Theorem send_message_unknown_session_errors sid message st :
  let r := send_message sid message st in
  dom (sessions r.2) ⊆ dom (sessions st)
  ∧ (sessions st !! sid = None → (get_session sid st).1 = None)
  ∧ match (get_session sid st).1 with
    | None => r.1 = [Error ("Session " +:+ sid +:+ " not found or expired") None]
    | Some _ => ∃ rest, r.1 = SessionStart sid :: rest
    end.
Proof.
  intros r. subst r. split; [apply send_message_dom|]. split.
  { intros H. by rewrite (get_session_absent sid st H). }
  pose proof (send_message_shape sid message st) as H. cbn zeta in H.
  destruct ((get_session sid st).1) as [s|]; [|by destruct H].
  destruct H as (pre & um & t & _ & _ & _ & H).
  destruct (has_complete (items (goose_send_message stream_of s message))).
  - destruct H as (c & mid & ->). eauto.
  - destruct H as [_ ->]. eauto.
Qed.

(** C6, amended. The events of a turn are non-terminal events followed by
    at most one terminal event ([message_complete] or [error]), after
    which nothing is yielded. There is exactly one terminal event when the
    session is missing, or when the Goose stream delivers a
    [message_complete] event or raises; a stream that ends without either
    leaves the turn without a terminal event. *)
Theorem send_message_at_most_one_terminal sid message st :
  let evs := (send_message sid message st).1 in
  (∃ pre, Forall (λ e, is_terminal e = false) pre
          ∧ (evs = pre ∨ ∃ e, is_terminal e = true ∧ evs = pre ++ [e]))
  ∧ (length (filter (λ e, is_terminal e = true) evs) ≤ 1)%nat
  ∧ (length (filter (λ e, is_terminal e = true) evs) = 1 ↔
     match (get_session sid st).1 with
     | None => True
     | Some s => upstream_terminates (goose_send_message stream_of s message) = true
     end).
Proof.
  intros evs. subst evs.
  pose proof (send_message_shape sid message st) as H. cbn zeta in H.
  destruct ((get_session sid st).1) as [s|].
  - destruct H as (pre & um & t & Hpre & _ & _ & H).
    assert (Hpre' : Forall (λ e, is_terminal e = false) (SessionStart sid :: pre))
      by by constructor.
    unfold upstream_terminates.
    destruct (has_complete (items (goose_send_message stream_of s message))).
    + destruct H as (c & mid & ->).
      change (SessionStart sid :: pre ++ [MessageComplete c mid sid])
        with ((SessionStart sid :: pre) ++ [MessageComplete c mid sid]).
      rewrite filter_app, (filter_nonterminal _ Hpre').
      split; [|by cbn]. exists (SessionStart sid :: pre). split; [done|].
      right. eexists. split; [|reflexivity]. done.
    + destruct H as [_ ->].
      destruct (ending (goose_send_message stream_of s message)) as [|msg].
      * rewrite app_nil_r, (filter_nonterminal _ Hpre').
        split; [|cbn; split; [lia | split; discriminate]]. exists (SessionStart sid :: pre). split; [done|]. by left.
      * change (SessionStart sid :: pre ++ [Error msg (Some sid)])
          with ((SessionStart sid :: pre) ++ [Error msg (Some sid)]).
        rewrite filter_app, (filter_nonterminal _ Hpre').
        split; [|by cbn]. exists (SessionStart sid :: pre). split; [done|].
        right. eexists. split; [|reflexivity]. done.
  - destruct H as [-> _]. split; [|by cbn].
    exists []. split; [constructor|]. right. eexists. split; [|reflexivity]. done.
Qed.


(** *** Expiry *)

Lemma expired_ids_sessions l st :
  sessions (expired_ids now_at goose_session_timeout l st).2 = sessions st.
Proof.
  revert st. induction l as [|[sid s] l IH]; intros st; [done|].
  cbn [Goose.expired_ids]. unfold bind, ret. rewrite is_session_expired_eq.
  specialize (IH (tick st)).
  by destruct (expired_ids now_at goose_session_timeout l (tick st)).
Qed.

Lemma close_all_subseteq sids st :
  sessions (close_all close_of sids st).2 ⊆ sessions st.
Proof.
  revert st. induction sids as [|sid sids IH]; intros st; [done|].
  cbn [Goose.close_all]. unfold bind.
  pose proof (close_session_subseteq sid st) as H.
  destruct (close_session sid st) as [b st1]. cbn [snd] in H.
  by trans (sessions st1).
Qed.

(** [list_sessions] returns the values of the store it leaves, which
    holds no entry the store did not hold before. *)
Lemma list_sessions_spec st :
  (list_sessions st).1 = (map_to_list (sessions (list_sessions st).2)).*2
  ∧ sessions (list_sessions st).2 ⊆ sessions st.
Proof.
  unfold Goose.list_sessions, bind.
  pose proof (expired_ids_sessions (map_to_list (sessions st)) st) as H1.
  destruct (expired_ids now_at goose_session_timeout (map_to_list (sessions st)) st)
    as [ids st1]. cbn [snd] in H1.
  pose proof (close_all_subseteq ids st1) as H2.
  destruct (close_all close_of ids st1) as [[] st2]. cbn [fst snd] in *.
  split; [done|]. by rewrite <- H1.
Qed.

(** C9, amended. [get_session] on a session whose age exceeds the timeout
    asks its Goose session, if any, to close and returns [None]. When
    that release does not raise, the entry is removed, a further
    [get_session] returns [None] as for an id that never existed, and
    every session returned by the next [list_sessions] is an entry stored
    under another id. *)
Theorem get_session_expired_evicts sid st s :
  sessions st !! sid = Some s →
  (timedelta_seconds goose_session_timeout
   < now_at (clock_reads st) - updated_at s)%Z →
  let r := get_session sid st in
  r.1 = None
  ∧ close_calls r.2
    = close_calls st ++ match goose_session s with Some h => [h] | None => [] end
  ∧ (close_succeeds s = true →
     sessions r.2 = delete sid (sessions st)
     ∧ get_session sid r.2 = (None, r.2)
     ∧ sessions (list_sessions r.2).2 !! sid = None
     ∧ ∀ x, x ∈ (list_sessions r.2).1 →
            ∃ k, k ≠ sid ∧ sessions st !! k = Some x).
Proof.
  intros Hs Hlt r. subst r.
  assert (He : expired_at st s = true) by by apply Z.ltb_lt.
  rewrite (get_session_expired sid st s Hs He). split; [done|].
  split; [exact (close_session_calls sid (tick st) s Hs)|].
  intros Hc. cbn [snd].
  destruct (close_session_released sid (tick st) s Hs Hc) as [_ Hdel].
  cbn [tick sessions] in Hdel.
  set (st1 := (close_session sid (tick st)).2) in *.
  assert (Hgone : sessions st1 !! sid = None) by by rewrite Hdel, lookup_delete_eq.
  split; [done|]. split; [by apply get_session_absent|].
  destruct (list_sessions_spec st1) as [Hl Hsub].
  split.
  { destruct (sessions (list_sessions st1).2 !! sid) as [x|] eqn:Hx; [|done].
    apply (lookup_weaken _ _ _ _ Hx) in Hsub. congruence. }
  intros x Hin. rewrite Hl in Hin.
  apply list_elem_of_fmap in Hin as ([k y] & -> & Hin).
  apply elem_of_map_to_list in Hin.
  apply (lookup_weaken _ _ _ _ Hin) in Hsub.
  rewrite Hdel in Hsub. apply lookup_delete_Some in Hsub as [Hne Hk].
  by exists k.
Qed.

End Turn.

Lemma send_message_unknown_session_errors_witness :
  (send_message clock_early sample_uuid 3600 close_returns stream_completes
     "s1" "hello" empty_state).1
  = [Error "Session s1 not found or expired" None].
Proof.
  destruct (send_message_unknown_session_errors clock_early sample_uuid 3600
              close_returns stream_completes "s1" "hello" empty_state)
    as (_ & Habsent & Hevents).
  rewrite (Habsent eq_refl) in Hevents. exact Hevents.
Defined.

Lemma send_message_at_most_one_terminal_witness :
  length (filter (λ e, is_terminal e = true)
            (send_message clock_early sample_uuid 3600 close_returns stream_completes
               "s1" "hello" sample_state).1) = 1.
Proof.
  destruct (send_message_at_most_one_terminal clock_early sample_uuid 3600
              close_returns stream_completes "s1" "hello" sample_state)
    as (_ & _ & Hiff).
  apply Hiff. vm_compute. reflexivity.
Defined.


Lemma get_session_expired_evicts_witness :
  (get_session clock_late 3600 close_returns "s1" sample_state).1 = None
  ∧ (list_sessions clock_late 3600 close_returns
       (get_session clock_late 3600 close_returns "s1" sample_state).2).1 = [].
Proof.
  assert (Hs : sessions sample_state !! "s1" = Some sample_session)
    by (vm_compute; reflexivity).
  assert (Hlt : (timedelta_seconds 3600
                 < clock_late (clock_reads sample_state) - updated_at sample_session)%Z)
    by (vm_compute; reflexivity).
  destruct (get_session_expired_evicts clock_late 3600 close_returns
              "s1" sample_state sample_session Hs Hlt) as [Hnone _].
  split; [exact Hnone|]. vm_compute. reflexivity.
Defined.

End GooseProofs.

(** ** The chat workflow *)
Module WorkflowProofs.
Import Workflow.

Section Turn.
Variable analyze_user_intent : string → list json → outcome IntentAnalysis.
Variable get_cluster_status : outcome json.
Variable execute_k8s_command : nat → string → outcome json.
Variable get_claude_response : list json → outcome string.
Variable now_isoformat : string.
Variable str_of : json → string.
Variable logger_error : string → string → outcome unit.

Local Abbreviation run_tools := (Workflow.run_tools execute_k8s_command logger_error).
Local Abbreviation gather_context :=
  (Workflow.gather_context get_cluster_status execute_k8s_command logger_error).
Local Abbreviation enhance :=
  (Workflow._enhance_messages_with_k8s_context now_isoformat str_of).
Local Abbreviation try_body :=
  (Workflow.try_body get_cluster_status execute_k8s_command get_claude_response
     now_isoformat str_of logger_error).
Local Abbreviation run :=
  (Workflow.run analyze_user_intent get_cluster_status execute_k8s_command
     get_claude_response now_isoformat str_of logger_error).

(** The tool loop only touches the tool results. *)
Lemma run_tools_frame i tools rd :
  conversation_id (run_tools i tools rd).1 = conversation_id rd
  ∧ intent_analysis (run_tools i tools rd).1 = intent_analysis rd
  ∧ k8s_data (run_tools i tools rd).1 = k8s_data rd
  ∧ response (run_tools i tools rd).1 = response rd
  ∧ error (run_tools i tools rd).1 = error rd.
Proof.
  revert i rd. induction tools as [|tool tools IH]; intros i rd; [done|].
  cbn [Workflow.run_tools].
  destruct (execute_k8s_command i tool) as [r|e].
  - destruct (IH (S i) (record_tool_result tool r rd)) as (-> & -> & -> & -> & ->).
    done.
  - destruct (logger_error _ e); [apply IH | done].
Qed.

(** The loop is left early only by the exception of a logging call made
    for a tool whose activity raised. *)
Lemma run_tools_left i tools rd t :
  (run_tools i tools rd).2 = Some t →
  ∃ j tool e,
    tools !! j = Some tool
    ∧ execute_k8s_command (i + j) tool = Raises e
    ∧ logger_error ("Failed to execute K8s tool " +:+ tool) e = Raises t.
Proof.
  revert i rd. induction tools as [|tool tools IH]; intros i rd; [done|].
  cbn [Workflow.run_tools].
  destruct (execute_k8s_command i tool) as [r|e] eqn:He.
  - intros H. destruct (IH _ _ H) as (j & tool' & e' & Hj & Hex & Hl).
    exists (S j), tool', e'. by rewrite Nat.add_succ_r.
  - destruct (logger_error _ e) as [u|t'] eqn:Hl.
    + intros H. destruct (IH _ _ H) as (j & tool' & e' & Hj & Hex & Hl').
      exists (S j), tool', e'. by rewrite Nat.add_succ_r.
    + cbn [snd]. intros [= ->]. exists 0, tool, e. by rewrite Nat.add_0_r.
Qed.





End Turn.


End WorkflowProofs.

(** ** The chat service *)
Module ChatProofs.
Import Models Chat.

Section Service.
Variable now_at : nat → Z.
Variable uuid_at : nat → string.
Variable strftime : Z → string.

Local Abbreviation create_conversation :=
  (Chat.create_conversation now_at uuid_at strftime).
Local Abbreviation get_conversation :=
  (Chat.get_conversation now_at uuid_at strftime).
Local Abbreviation add_message := (Chat.add_message now_at uuid_at strftime).

(** The constructor call of [create_conversation] leaves out the required
    [session_id], so the call raises before the conversation is stored. *)
Lemma create_conversation_raises title st :
  ∃ st',
    create_conversation title st
    = (Raise (ValidationError "Conversation" ["session_id"]), st')
    ∧ conversations st' = conversations st.
Proof.
  unfold Chat.create_conversation, bind, uuid4, datetime_now, lift, ret.
  destruct (truthy_opt title); cbn; eauto.
Qed.

(** With the field supplied the constructor returns the record. *)
Lemma Conversation_init_complete i title sid created updated :
  Conversation_init (Some i) title (Some sid) (Some []) (Some created) (Some updated) None
  = Ok (mkConversation i title sid [] created updated None).
Proof. reflexivity. Qed.

(** For an id in the store, [add_message] appends to that entry. *)
Lemma add_message_known cid role content st c :
  conversations st !! cid = Some c →
  ∃ m st',
    add_message cid role content st = (Ok m, st')
    ∧ Models.role m = role ∧ Models.content m = content
    ∧ ∃ c', conversations st' !! cid = Some c' ∧ messages c' = messages c ++ [m].
Proof.
  intros H. unfold Chat.add_message, Chat.get_conversation, bind.
  rewrite H. rewrite bool_decide_eq_true_2 by eauto.
  unfold uuid4, datetime_now, with_conversations, ret.
  cbv beta iota. cbn [conversations clock_reads uuids_drawn].
  eexists _, _. split; [reflexivity|]. split; [done|]. split; [done|].
  cbn [conversations]. eexists. by rewrite !lookup_alter_eq, H.
Qed.

(** C10, on the code. For an id that is not in the store,
    [get_conversation] raises the validation error of [Conversation] and
    stores nothing; so does [add_message], which appends no message. *)
Theorem get_conversation_unknown_raises cid st :
  conversations st !! cid = None →
  (∃ st',
     get_conversation cid st
     = (Raise (ValidationError "Conversation" ["session_id"]), st')
     ∧ conversations st' = conversations st)
  ∧ ∀ role content,
      ∃ st',
        add_message cid role content st
        = (Raise (ValidationError "Conversation" ["session_id"]), st')
        ∧ conversations st' = conversations st.
Proof.
  intros H.
  assert (Hget : ∃ st',
             get_conversation cid st
             = (Raise (ValidationError "Conversation" ["session_id"]), st')
             ∧ conversations st' = conversations st).
  { unfold Chat.get_conversation. rewrite H. apply create_conversation_raises. }
  split; [exact Hget|]. intros role content.
  destruct Hget as (st' & Hget & Hst').
  exists st'. unfold Chat.add_message, bind. by rewrite Hget.
Qed.

End Service.

Lemma get_conversation_unknown_raises_witness :
  ∃ st',
    Chat.get_conversation sample_now sample_uuid sample_strftime "abc" empty_state
    = (Raise (ValidationError "Conversation" ["session_id"]), st')
    ∧ conversations st' = ∅.
Proof.
  exact (proj1 (get_conversation_unknown_raises sample_now sample_uuid
                  sample_strftime "abc" empty_state eq_refl)).
Defined.

End ChatProofs.

(** * Further properties of the modelled code *)

(** ** The classifier and [execute] as a whole *)
Module KubectlFacts.
Import Kubectl.

Lemma safe_not_dangerous (name : string) :
  name ∈ SAFE_COMMANDS → name ∉ DANGEROUS_COMMANDS.
Proof.
  assert (H : SAFE_COMMANDS ## DANGEROUS_COMMANDS)
    by (refine (bool_decide_unpack _ _); vm_compute; exact I).
  intros Hs Hd. exact (H name Hs Hd).
Qed.

(** X1. The classifier allows a command exactly when it is a safe command,
    or a write command with [confirm] set. *)
Theorem allowed_iff_safe_or_confirmed_write (name : string) (confirm : bool) :
  allowed (_check_command_security name confirm) = true
  ↔ name ∈ SAFE_COMMANDS ∨ (name ∈ WRITE_COMMANDS ∧ confirm = true).
Proof.
  unfold _check_command_security, check_command_security_with.
  destruct (decide (name ∈ DANGEROUS_COMMANDS)) as [Hd|Hd].
  { rewrite (bool_decide_eq_true_2 _ Hd). cbn. split; [discriminate|].
    intros [Hs | [Hw _]].
    - by destruct (safe_not_dangerous name Hs).
    - by destruct (KubectlProofs.write_not_dangerous name Hw). }
  rewrite (bool_decide_eq_false_2 _ Hd).
  destruct (decide (name ∈ WRITE_COMMANDS)) as [Hw|Hw].
  - rewrite (bool_decide_eq_true_2 _ Hw).
    pose proof (KubectlProofs.write_not_safe name Hw) as Hs.
    rewrite (bool_decide_eq_false_2 _ Hs).
    destruct confirm; cbn; split; try discriminate; try done; auto.
    intros [?|[_ ?]]; done.
  - rewrite (bool_decide_eq_false_2 _ Hw). cbn [andb orb].
    destruct (decide (name ∈ SAFE_COMMANDS)) as [Hs|Hs].
    + rewrite (bool_decide_eq_true_2 _ Hs). cbn. split; auto.
    + rewrite (bool_decide_eq_false_2 _ Hs). cbn. split; [discriminate|].
      intros [?|[? _]]; done.
Qed.

Section Whole.
Variable probe_result : ProcResult.
Variable command_result : list string → ProcResult.
Variable json_loads : string → option json.
Variable strip : string → string.

Local Abbreviation execute := (execute probe_result command_result json_loads strip).
Local Abbreviation check_kubectl_available :=
  (check_kubectl_available probe_result json_loads).


End Whole.

End KubectlFacts.

(** ** Sessions: closing, sweeping, and what a turn leaves behind *)
Module GooseFacts.
Import Models Goose GooseStream.

Section Store.
Variable now_at : nat → Z.
Variable uuid_at : nat → string.
Variable goose_session_timeout : Z.
Variable close_of : handle → option string.
Variable stream_of : handle → string → upstream.

Local Abbreviation expired_at := (Goose.expired_at now_at goose_session_timeout).
Local Abbreviation close_succeeds := (Goose.close_succeeds close_of).
Local Abbreviation close_session := (Goose.close_session close_of).
Local Abbreviation close_all := (Goose.close_all close_of).
Local Abbreviation expired_ids := (Goose.expired_ids now_at goose_session_timeout).
Local Abbreviation get_session :=
  (Goose.get_session now_at goose_session_timeout close_of).
Local Abbreviation list_sessions :=
  (Goose.list_sessions now_at goose_session_timeout close_of).
Local Abbreviation stream_loop := (Goose.stream_loop now_at uuid_at).
Local Abbreviation send_message :=
  (Goose.send_message now_at uuid_at goose_session_timeout close_of stream_of).

Lemma close_session_other sid k st :
  k ≠ sid → sessions (close_session sid st).2 !! k = sessions st !! k.
Proof.
  intros Hne.
  destruct (GooseProofs.close_session_sessions close_of sid st) as [-> | ->];
    [done|]. by rewrite lookup_delete_ne.
Qed.

(** X4. [close_session] on an id that is not stored returns [False] and
    changes nothing; after a close that returned [True] the id is gone,
    and closing it again returns [False] and changes nothing. *)
Theorem close_session_idempotent sid st :
  (sessions st !! sid = None → close_session sid st = (false, st))
  ∧ ((close_session sid st).1 = true →
     sessions (close_session sid st).2 !! sid = None
     ∧ close_session sid (close_session sid st).2
       = (false, (close_session sid st).2)).
Proof.
  assert (Habsent : ∀ st', sessions st' !! sid = None →
                           close_session sid st' = (false, st')).
  { intros st' H. unfold Goose.close_session. by rewrite H. }
  split; [apply Habsent|]. intros Hok.
  assert (Hgone : sessions (close_session sid st).2 !! sid = None).
  { revert Hok. unfold Goose.close_session.
    destruct (sessions st !! sid) as [s|] eqn:Hs; [|done].
    destruct (goose_session s) as [h|].
    - destruct (close_of h); [discriminate|]. intros _. cbn.
      apply lookup_delete_eq.
    - intros _. cbn. apply lookup_delete_eq. }
  split; [exact Hgone|]. by apply Habsent.
Qed.

(** *** The sweep of [list_sessions] *)

Lemma expired_ids_sound l : ∀ st sid,
  sid ∈ (expired_ids l st).1 →
  ∃ s n, (sid, s) ∈ l
         ∧ (timedelta_seconds goose_session_timeout <? now_at n - updated_at s)%Z = true.
Proof.
  induction l as [|[k s] l IH]; intros st sid; cbn [Goose.expired_ids].
  { intros Hin. by apply elem_of_nil in Hin. }
  unfold bind, ret. rewrite GooseProofs.is_session_expired_eq.
  specialize (IH (tick st) sid).
  destruct (expired_ids l (tick st)) as [rest st']. cbn [fst] in *.
  destruct (expired_at st s) eqn:He.
  - intros [->|Hin]%elem_of_cons.
    + exists s, (clock_reads st). split; [left|done].
    + destruct (IH Hin) as (s' & n & ? & ?). exists s', n. split; [by right|done].
  - intros Hin. destruct (IH Hin) as (s' & n & ? & ?).
    exists s', n. split; [by right|done].
Qed.

Lemma expired_ids_complete l : ∀ st sid s,
  (sid, s) ∈ l →
  (∀ n, (timedelta_seconds goose_session_timeout <? now_at n - updated_at s)%Z = true) →
  sid ∈ (expired_ids l st).1.
Proof.
  induction l as [|[k s'] l IH]; intros st sid s Hin Hexp;
    [by apply elem_of_nil in Hin|].
  cbn [Goose.expired_ids]. unfold bind, ret.
  rewrite GooseProofs.is_session_expired_eq.
  specialize (IH (tick st) sid s).
  destruct (expired_ids l (tick st)) as [rest st']. cbn [fst] in *.
  apply elem_of_cons in Hin as [[= -> ->]|Hin].
  - unfold Goose.expired_at. rewrite Hexp. by left.
  - destruct (expired_at st s'); [right|]; by apply IH.
Qed.

Lemma close_all_other sids : ∀ st k,
  k ∉ sids → sessions (close_all sids st).2 !! k = sessions st !! k.
Proof.
  induction sids as [|sid sids IH]; intros st k Hk; [done|].
  cbn [Goose.close_all]. unfold bind.
  apply not_elem_of_cons in Hk as [Hne Hk].
  pose proof (close_session_other sid k st Hne) as H1.
  destruct (close_session sid st) as [b st1]. cbn [snd] in H1.
  by rewrite (IH st1 k Hk).
Qed.

Lemma close_all_closes sids : ∀ st k s,
  k ∈ sids → sessions st !! k = Some s → close_succeeds s = true →
  sessions (close_all sids st).2 !! k = None.
Proof.
  induction sids as [|sid sids IH]; intros st k s Hk Hs Hc;
    [by apply elem_of_nil in Hk|].
  cbn [Goose.close_all]. unfold bind.
  destruct (decide (sid = k)) as [->|Hne].
  - destruct (GooseProofs.close_session_released close_of k st s Hs Hc) as [_ Hdel].
    pose proof (GooseProofs.close_all_subseteq close_of sids (close_session k st).2)
      as Hsub.
    destruct (close_session k st) as [b st1]. cbn [snd] in *.
    destruct (sessions (close_all sids st1).2 !! k) as [x|] eqn:Hx; [|done].
    apply (lookup_weaken _ _ _ _ Hx) in Hsub.
    by rewrite Hdel, lookup_delete_eq in Hsub.
  - apply elem_of_cons in Hk as [->|Hk]; [done|].
    pose proof (close_session_other sid k st (not_eq_sym Hne)) as H1.
    destruct (close_session sid st) as [b st1]. cbn [snd] in H1.
    apply (IH st1 k s Hk); [by rewrite H1 | done].
Qed.

Lemma list_sessions_unfold st :
  (list_sessions st).2
  = (close_all (expired_ids (map_to_list (sessions st)) st).1
       (expired_ids (map_to_list (sessions st)) st).2).2.
Proof.
  unfold Goose.list_sessions, bind.
  destruct (expired_ids (map_to_list (sessions st)) st) as [ids st1].
  cbn [fst snd].
  by destruct (Goose.close_all close_of ids st1) as [[] st2].
Qed.

(** X5. [list_sessions] keeps, and returns, every session whose age
    never exceeds the timeout at any reading of the clock. *)
Theorem list_sessions_keeps_unexpired k s st :
  sessions st !! k = Some s →
  (∀ n, (now_at n - updated_at s ≤ timedelta_seconds goose_session_timeout)%Z) →
  sessions (list_sessions st).2 !! k = Some s
  ∧ s ∈ (list_sessions st).1.
Proof.
  intros Hs Hlive.
  assert (Hkept : sessions (list_sessions st).2 !! k = Some s).
  { rewrite list_sessions_unfold.
    pose proof (expired_ids_sound (map_to_list (sessions st)) st k) as Hsound.
    pose proof (GooseProofs.expired_ids_sessions now_at goose_session_timeout
                  (map_to_list (sessions st)) st) as Hsame.
    destruct (expired_ids (map_to_list (sessions st)) st) as [ids st1].
    cbn [fst snd] in *.
    rewrite close_all_other; [by rewrite Hsame|].
    intros Hin. destruct (Hsound Hin) as (s' & n & Hel & Hexp).
    apply elem_of_map_to_list in Hel. rewrite Hs in Hel. injection Hel as <-.
    apply Z.ltb_lt in Hexp. specialize (Hlive n). lia. }
  split; [exact Hkept|].
  destruct (GooseProofs.list_sessions_spec now_at goose_session_timeout close_of st)
    as [-> _].
  apply list_elem_of_fmap. exists (k, s). split; [done|].
  by apply elem_of_map_to_list.
Qed.

(** X6. [list_sessions] removes every session whose age exceeds the
    timeout at every reading of the clock and whose Goose session closes
    without raising; no session it returns is stored under that id. *)
Theorem list_sessions_evicts_expired k s st :
  sessions st !! k = Some s →
  (∀ n, (timedelta_seconds goose_session_timeout < now_at n - updated_at s)%Z) →
  close_succeeds s = true →
  sessions (list_sessions st).2 !! k = None
  ∧ ∀ x, x ∈ (list_sessions st).1 → ∃ k', k' ≠ k ∧ sessions st !! k' = Some x.
Proof.
  intros Hs Hexp Hc.
  assert (Hgone : sessions (list_sessions st).2 !! k = None).
  { rewrite list_sessions_unfold.
    pose proof (expired_ids_complete (map_to_list (sessions st)) st k s) as Hcomp.
    pose proof (GooseProofs.expired_ids_sessions now_at goose_session_timeout
                  (map_to_list (sessions st)) st) as Hsame.
    destruct (expired_ids (map_to_list (sessions st)) st) as [ids st1].
    cbn [fst snd] in *.
    apply (close_all_closes ids st1 k s); [|by rewrite Hsame|done].
    apply Hcomp; [by apply elem_of_map_to_list|].
    intros n. apply Z.ltb_lt, Hexp. }
  split; [exact Hgone|].
  destruct (GooseProofs.list_sessions_spec now_at goose_session_timeout close_of st)
    as [Hl Hsub].
  intros x Hin. rewrite Hl in Hin.
  apply list_elem_of_fmap in Hin as ([k' y] & -> & Hin).
  apply elem_of_map_to_list in Hin. exists k'. split.
  - intros ->. congruence.
  - by apply (lookup_weaken _ _ _ _ Hin) in Hsub.
Qed.

(** X7. A turn touches no session but its own: every other entry of the
    store is the same after [send_message]. *)
Theorem send_message_other_sessions sid message st k :
  k ≠ sid →
  sessions (send_message sid message st).2 !! k = sessions st !! k.
Proof.
  intros Hne.
  destruct ((get_session sid st).1) as [s|] eqn:Hg.
  - destruct (GooseProofs.send_message_live now_at uuid_at goose_session_timeout
                close_of stream_of sid message st s Hg)
      as (um & t & mid & st2 & _ & _ & Hst2 & ->).
    destruct (GooseProofs.stream_loop_spec now_at uuid_at sid mid
                (ending (goose_send_message stream_of s message))
                (items (goose_send_message stream_of s message)) "" [] [] st2)
      as (pre & _ & H).
    cbn [snd].
    destruct (has_complete (items (goose_send_message stream_of s message))).
    + destruct H as (c & am & t' & _ & -> & _).
      by rewrite !lookup_alter_ne, Hst2, !lookup_alter_ne.
    + destruct H as [-> _]. by rewrite Hst2, !lookup_alter_ne.
  - rewrite (GooseProofs.send_message_missing now_at uuid_at goose_session_timeout
               close_of stream_of sid message st Hg). cbn [snd].
    destruct (GooseProofs.get_session_cases now_at goose_session_timeout close_of sid st)
      as [[-> _] | [(s & _ & _ & ->) | (s & _ & _ & ->)]]; [done..|].
    cbn [snd]. by rewrite close_session_other.
Qed.

(** *** The streamed turn in detail *)

Lemma append_empty_r (a : string) : a +:+ "" = a.
Proof.
  induction a as [|x a IH]; [reflexivity|].
  change (String x (a +:+ "") = String x a). by rewrite IH.
Qed.

Lemma stream_loop_deltas sid mid e evs :
  ∀ rc calls results st,
    event_deltas (stream_loop sid mid evs e rc calls results st).1
    = deltas_before_complete evs.
Proof.
  induction evs as [|ev evs IH]; intros rc calls results st.
  { cbn. by destruct e. }
  cbn [Goose.stream_loop deltas_before_complete].
  destruct (String.eqb (type ev) "text_delta") eqn:E1.
  { apply String.eqb_eq in E1. rewrite E1. cbn [String.eqb Ascii.eqb Bool.eqb].
    unfold bind, ret.
    specialize (IH (rc +:+ ev_content ev) calls results st).
    destruct (stream_loop sid mid evs e (rc +:+ ev_content ev) calls results st).
    cbn [fst event_deltas] in *. by rewrite IH. }
  destruct (String.eqb (type ev) "tool_call") eqn:E2.
  { apply String.eqb_eq in E2. rewrite E2. cbn [String.eqb Ascii.eqb Bool.eqb].
    unfold bind, ret, uuid4.
    match goal with
    | |- context [stream_loop sid mid evs e rc ?c ?r ?s] =>
        specialize (IH rc c r s); destruct (stream_loop sid mid evs e rc c r s)
    end.
    cbn [fst event_deltas] in *. by rewrite IH. }
  destruct (String.eqb (type ev) "tool_result") eqn:E3.
  { apply String.eqb_eq in E3. rewrite E3. cbn [String.eqb Ascii.eqb Bool.eqb].
    unfold bind, ret, uuid4.
    match goal with
    | |- context [stream_loop sid mid evs e rc ?c ?r ?s] =>
        specialize (IH rc c r s); destruct (stream_loop sid mid evs e rc c r s)
    end.
    cbn [fst event_deltas] in *. by rewrite IH. }
  destruct (String.eqb (type ev) "message_complete") eqn:E4; [done|].
  apply IH.
Qed.

(** With a [message_complete] event in the stream: the content of the
    terminal event and of the stored assistant message is the text so far
    followed by the fragments received, and the two clock readings are
    the next two. *)
Lemma stream_loop_complete sid mid e evs :
  ∀ rc calls results st,
    has_complete evs = true →
    ∃ pre tc tr,
      (stream_loop sid mid evs e rc calls results st).1
      = pre ++ [MessageComplete (rc +:+ joined (deltas_before_complete evs)) mid sid]
      ∧ Forall (λ ev, is_terminal ev = false) pre
      ∧ sessions (stream_loop sid mid evs e rc calls results st).2
        = alter (set_updated_at (now_at (S (clock_reads st)))) sid
            (alter (append_message
                      (mkChatMessage mid ASSISTANT
                         (rc +:+ joined (deltas_before_complete evs))
                         (now_at (clock_reads st)) None tc tr))
               sid (sessions st)).
Proof.
  induction evs as [|ev evs IH]; intros rc calls results st Hc; [discriminate|].
  cbn [has_complete existsb] in Hc.
  cbn [Goose.stream_loop deltas_before_complete].
  destruct (String.eqb (type ev) "text_delta") eqn:E1.
  { apply String.eqb_eq in E1. rewrite E1 in Hc |- *.
    cbn [String.eqb Ascii.eqb Bool.eqb orb] in Hc |- *.
    unfold bind, ret.
    destruct (IH (rc +:+ ev_content ev) calls results st Hc)
      as (pre & tc & tr & Hout & Hpre & Hst).
    destruct (stream_loop sid mid evs e (rc +:+ ev_content ev) calls results st)
      as [out st'].
    cbn [fst snd] in *. subst out.
    exists (MessageDelta (ev_content ev) mid sid :: pre), tc, tr.
    change (joined (ev_content ev :: deltas_before_complete evs))
      with (ev_content ev +:+ joined (deltas_before_complete evs)).
    rewrite <- KubectlProofs.append_assoc.
    split; [done|]. split; [by constructor|]. done. }
  destruct (String.eqb (type ev) "tool_call") eqn:E2.
  { apply String.eqb_eq in E2. rewrite E2 in Hc |- *.
    cbn [String.eqb Ascii.eqb Bool.eqb orb] in Hc |- *.
    unfold bind, ret, uuid4.
    match goal with
    | |- context [stream_loop sid mid evs e rc ?c ?r ?s] =>
        destruct (IH rc c r s Hc) as (pre & tc & tr & Hout & Hpre & Hst);
        destruct (stream_loop sid mid evs e rc c r s) as [out st']
    end.
    cbn [fst snd] in *. subst out.
    eexists (_ :: pre), tc, tr.
    split; [reflexivity|]. split; [by constructor|]. done. }
  destruct (String.eqb (type ev) "tool_result") eqn:E3.
  { apply String.eqb_eq in E3. rewrite E3 in Hc |- *.
    cbn [String.eqb Ascii.eqb Bool.eqb orb] in Hc |- *.
    unfold bind, ret, uuid4.
    match goal with
    | |- context [stream_loop sid mid evs e rc ?c ?r ?s] =>
        destruct (IH rc c r s Hc) as (pre & tc & tr & Hout & Hpre & Hst);
        destruct (stream_loop sid mid evs e rc c r s) as [out st']
    end.
    cbn [fst snd] in *. subst out.
    eexists (_ :: pre), tc, tr.
    split; [reflexivity|]. split; [by constructor|]. done. }
  destruct (String.eqb (type ev) "message_complete") eqn:E4.
  { exists [], (match calls with [] => None | l => Some l end),
      (match results with [] => None | l => Some l end).
    cbn [joined foldr]. rewrite append_empty_r.
    split; [reflexivity|]. split; [constructor|]. reflexivity. }
  cbn [orb] in Hc. apply (IH rc calls results st Hc).
Qed.

Lemma send_message_live_detail sid message st s :
  (get_session sid st).1 = Some s →
  sessions st !! sid = Some s
  ∧ send_message sid message st
    = (let up := goose_send_message stream_of s message in
       let um := mkChatMessage (uuid_at (uuids_drawn st)) USER message
                   (now_at (S (clock_reads st))) None None None in
       let st2 := mkState
                    (alter (set_updated_at (now_at (S (S (clock_reads st))))) sid
                       (alter (append_message um) sid (sessions st)))
                    (S (S (S (clock_reads st)))) (S (S (uuids_drawn st)))
                    (close_calls st) in
       let r := stream_loop sid (uuid_at (S (uuids_drawn st)))
                  (items up) (ending up) "" [] [] st2 in
       (SessionStart sid :: r.1, r.2)).
Proof.
  intros Hg.
  destruct (GooseProofs.get_session_cases now_at goose_session_timeout close_of sid st)
    as [[Hc _] | [(s' & Hs' & _ & Hc) | (s' & _ & _ & Hc)]];
    rewrite Hc in Hg; [discriminate| |discriminate].
  cbn [fst] in Hg. injection Hg as ->. split; [done|].
  unfold Goose.send_message, bind. rewrite Hc.
  unfold uuid4, datetime_now, with_sessions, ret, tick.
  cbn [sessions clock_reads uuids_drawn close_calls].
  cbv zeta.
  by destruct (Goose.stream_loop _ _ _ _ _ _ _ _ _ _).
Qed.

(** X8. A turn on a live session whose stream delivers
    [message_complete] ends with that event, and leaves the session with
    exactly two more messages: the user's, then the assistant's. The
    assistant's content, and the content of the terminal event, is the
    concatenation of the text fragments received, and its id is the
    event's [message_id]. *)
Theorem send_message_completed_turn sid message st s :
  (get_session sid st).1 = Some s →
  has_complete (items (goose_send_message stream_of s message)) = true →
  let text := joined (deltas_before_complete
                        (items (goose_send_message stream_of s message))) in
  ∃ pre mid um am s',
    (send_message sid message st).1
    = SessionStart sid :: pre ++ [MessageComplete text mid sid]
    ∧ Forall (λ ev, is_terminal ev = false) pre
    ∧ sessions (send_message sid message st).2 !! sid = Some s'
    ∧ messages s' = messages s ++ [um; am]
    ∧ role um = USER ∧ content um = message
    ∧ role am = ASSISTANT ∧ content am = text ∧ msg_id am = mid.
Proof.
  intros Hg Hc text.
  destruct (send_message_live_detail sid message st s Hg) as [Hs ->].
  cbv zeta.
  match goal with
  | |- context [stream_loop sid ?m ?i ?e "" [] [] ?st2] =>
      destruct (stream_loop_complete sid m e i "" [] [] st2 Hc)
        as (pre & tc & tr & Hout & Hpre & Hst)
  end.
  cbn [fst snd]. rewrite Hout, Hst.
  eexists pre, _, _, _, _. split; [reflexivity|]. split; [done|].
  cbn [sessions]. rewrite !lookup_alter_eq, Hs. cbn [fmap option_fmap option_map].
  split; [reflexivity|].
  cbn [messages set_updated_at append_message].
  rewrite <- app_assoc. split; [reflexivity|]. done.
Qed.

(** X9. With a clock that never goes back, the timestamps of a completed
    turn are in order: the user message is not later than the assistant
    message, which is not later than the session's [updated_at]. *)
Theorem send_message_timestamps_ordered sid message st s :
  (∀ i j : nat, (i ≤ j)%nat → (now_at i ≤ now_at j)%Z) →
  (get_session sid st).1 = Some s →
  has_complete (items (goose_send_message stream_of s message)) = true →
  ∃ um am s',
    sessions (send_message sid message st).2 !! sid = Some s'
    ∧ messages s' = messages s ++ [um; am]
    ∧ (timestamp um ≤ timestamp am)%Z
    ∧ (timestamp am ≤ updated_at s')%Z.
Proof.
  intros Hmono Hg Hc.
  destruct (send_message_live_detail sid message st s Hg) as [Hs ->].
  cbv zeta.
  match goal with
  | |- context [stream_loop sid ?m ?i ?e "" [] [] ?st2] =>
      destruct (stream_loop_complete sid m e i "" [] [] st2 Hc)
        as (pre & tc & tr & Hout & Hpre & Hst)
  end.
  cbn [fst snd]. rewrite Hst.
  eexists _, _, _.
  cbn [sessions clock_reads]. rewrite !lookup_alter_eq, Hs.
  cbn [fmap option_fmap option_map].
  split; [reflexivity|].
  cbn [messages set_updated_at append_message updated_at timestamp].
  rewrite <- app_assoc. split; [reflexivity|].
  split; apply Hmono; lia.
Qed.

Lemma live_turn_deltas sid message st s :
  (get_session sid st).1 = Some s →
  event_deltas (send_message sid message st).1
  = deltas_before_complete (items (goose_send_message stream_of s message)).
Proof.
  intros Hg. destruct (send_message_live_detail sid message st s Hg) as [_ ->].
  cbv zeta. cbn [fst event_deltas]. apply stream_loop_deltas.
Qed.

(** X10. The [message_delta] events of a turn carry, in order, exactly
    the text fragments received before the loop stopped; a turn on a
    missing session has none. *)
Theorem send_message_deltas sid message st :
  event_deltas (send_message sid message st).1
  = match (get_session sid st).1 with
    | None => []
    | Some s => deltas_before_complete (items (goose_send_message stream_of s message))
    end.
Proof.
  destruct ((get_session sid st).1) as [s|] eqn:Hg.
  - exact (live_turn_deltas sid message st s Hg).
  - by rewrite (GooseProofs.send_message_missing now_at uuid_at goose_session_timeout
                  close_of stream_of sid message st Hg).
Qed.

Lemma stream_loop_tool_results sid mid e evs :
  ∀ rc calls results st tr sid',
    ToolResultEvent tr sid' ∈ (stream_loop sid mid evs e rc calls results st).1 →
    tr_success tr = true → tr_error tr = None.
Proof.
  induction evs as [|ev evs IH]; intros rc calls results st tr sid'.
  { cbn. destruct e; cbn; [by intros ?%elem_of_nil|].
    intros [?|?%elem_of_nil]%elem_of_cons; done. }
  cbn [Goose.stream_loop].
  destruct (String.eqb (type ev) "text_delta").
  { unfold bind, ret.
    specialize (IH (rc +:+ ev_content ev) calls results st tr sid').
    destruct (stream_loop sid mid evs e (rc +:+ ev_content ev) calls results st).
    cbn [fst] in *. intros [?|?]%elem_of_cons; [done|auto]. }
  destruct (String.eqb (type ev) "tool_call").
  { unfold bind, ret, uuid4.
    match goal with
    | |- context [stream_loop sid mid evs e rc ?c ?r ?s] =>
        specialize (IH rc c r s tr sid');
        destruct (stream_loop sid mid evs e rc c r s)
    end.
    cbn [fst] in *. intros [?|?]%elem_of_cons; [done|auto]. }
  destruct (String.eqb (type ev) "tool_result").
  { unfold bind, ret, uuid4.
    match goal with
    | |- context [stream_loop sid mid evs e rc ?c ?r ?s] =>
        specialize (IH rc c r s tr sid');
        destruct (stream_loop sid mid evs e rc c r s)
    end.
    cbn [fst] in *. intros [Heq|?]%elem_of_cons; [|auto].
    injection Heq as -> _. cbn. intros ->. done. }
  destruct (String.eqb (type ev) "message_complete").
  { cbn. intros [?|?%elem_of_nil]%elem_of_cons; done. }
  apply IH.
Qed.

(** X11. Every [tool_result] event of a turn that reports success carries
    no error text, whatever the Goose event held. *)
Theorem send_message_tool_result_errors sid message st tr sid' :
  ToolResultEvent tr sid' ∈ (send_message sid message st).1 →
  tr_success tr = true → tr_error tr = None.
Proof.
  destruct ((get_session sid st).1) as [s|] eqn:Hg.
  - destruct (send_message_live_detail sid message st s Hg) as [_ ->].
    cbv zeta. cbn [fst]. intros [?|Hin]%elem_of_cons; [done|].
    exact (stream_loop_tool_results _ _ _ _ _ _ _ _ _ _ Hin).
  - rewrite (GooseProofs.send_message_missing now_at uuid_at goose_session_timeout
               close_of stream_of sid message st Hg).
    cbn. intros [?|?%elem_of_nil]%elem_of_cons; done.
Qed.

Lemma stream_loop_truncate sid mid e e' evs :
  ∀ rc calls results st,
    has_complete evs = true →
    stream_loop sid mid evs e rc calls results st
    = stream_loop sid mid (until_complete evs) e' rc calls results st.
Proof.
  induction evs as [|ev evs IH]; intros rc calls results st Hc; [discriminate|].
  cbn [has_complete existsb] in Hc. cbn [until_complete].
  destruct (String.eqb (type ev) "message_complete") eqn:E4.
  { apply String.eqb_eq in E4. cbn [Goose.stream_loop]. rewrite E4. reflexivity. }
  cbn [orb] in Hc. cbn [Goose.stream_loop]. rewrite E4.
  destruct (String.eqb (type ev) "text_delta").
  { unfold bind. by rewrite (IH _ _ _ _ Hc). }
  destruct (String.eqb (type ev) "tool_call").
  { unfold bind, uuid4. by rewrite (IH _ _ _ _ Hc). }
  destruct (String.eqb (type ev) "tool_result").
  { unfold bind, uuid4. by rewrite (IH _ _ _ _ Hc). }
  apply (IH _ _ _ _ Hc).
Qed.

(** X12. What the Goose stream holds after its first [message_complete]
    event, further events or an exception, has no effect on the turn:
    the events yielded and the store are the same as for the stream cut
    there. *)
Theorem send_message_ignores_after_complete sid message st :
  send_message sid message st
  = Goose.send_message now_at uuid_at goose_session_timeout close_of
      (λ h m, truncate_upstream (stream_of h m)) sid message st.
Proof.
  unfold Goose.send_message, bind.
  destruct (get_session sid st) as [[s|] st1]; [|done].
  unfold uuid4, datetime_now, with_sessions, ret.
  cbn [sessions clock_reads uuids_drawn close_calls].
  unfold goose_send_message. destruct (goose_session s) as [h|]; [|done].
  unfold truncate_upstream.
  destruct (has_complete (items (stream_of h message))) eqn:Hc; [|done].
  cbn [items ending].
  by rewrite (stream_loop_truncate sid _ (ending (stream_of h message)) Exhausted
                _ _ _ _ _ Hc).
Qed.

End Store.

Lemma close_session_idempotent_witness :
  close_session close_returns "s1" (close_session close_returns "s1" sample_state).2
  = (false, (close_session close_returns "s1" sample_state).2).
Proof.
  refine (proj2 (proj2 (close_session_idempotent close_returns "s1" sample_state) _)).
  vm_compute. reflexivity.
Defined.

Lemma list_sessions_keeps_unexpired_witness :
  sample_session
  ∈ (list_sessions clock_early 3600 close_returns sample_state).1.
Proof.
  refine (proj2 (list_sessions_keeps_unexpired clock_early 3600 close_returns
                   "s1" sample_session sample_state _ _)).
  - vm_compute. reflexivity.
  - intros n. vm_compute. discriminate.
Defined.

Lemma list_sessions_evicts_expired_witness :
  sessions (list_sessions clock_late 3600 close_returns sample_state).2 !! "s1" = None.
Proof.
  refine (proj1 (list_sessions_evicts_expired clock_late 3600 close_returns
                   "s1" sample_session sample_state _ _ _)).
  - vm_compute. reflexivity.
  - intros n. vm_compute. reflexivity.
  - vm_compute. reflexivity.
Defined.

Lemma send_message_other_sessions_witness :
  sessions (send_message clock_early sample_uuid 3600 close_returns stream_completes
              "s2" "hello" sample_state).2 !! "s1"
  = Some sample_session.
Proof.
  rewrite (send_message_other_sessions clock_early sample_uuid 3600 close_returns
             stream_completes "s2" "hello" sample_state "s1");
    [vm_compute; reflexivity | discriminate].
Defined.

Lemma send_message_completed_turn_witness :
  ∃ pre mid um am s',
    (send_message clock_early sample_uuid 3600 close_returns stream_completes
       "s1" "hello" sample_state).1
    = SessionStart "s1" :: pre ++ [MessageComplete "Hello" mid "s1"]
    ∧ Forall (λ ev, is_terminal ev = false) pre
    ∧ sessions (send_message clock_early sample_uuid 3600 close_returns
                  stream_completes "s1" "hello" sample_state).2 !! "s1" = Some s'
    ∧ messages s' = messages sample_session ++ [um; am]
    ∧ role um = USER ∧ content um = "hello"
    ∧ role am = ASSISTANT ∧ content am = "Hello" ∧ msg_id am = mid.
Proof.
  refine (send_message_completed_turn clock_early sample_uuid 3600 close_returns
            stream_completes "s1" "hello" sample_state sample_session _ _);
    vm_compute; reflexivity.
Defined.

Lemma send_message_timestamps_ordered_witness :
  ∃ um am s',
    sessions (send_message clock_early sample_uuid 3600 close_returns
                stream_completes "s1" "hello" sample_state).2 !! "s1" = Some s'
    ∧ messages s' = messages sample_session ++ [um; am]
    ∧ (timestamp um ≤ timestamp am)%Z
    ∧ (timestamp am ≤ updated_at s')%Z.
Proof.
  refine (send_message_timestamps_ordered clock_early sample_uuid 3600 close_returns
            stream_completes "s1" "hello" sample_state sample_session _ _ _).
  - intros i j _. reflexivity.
  - vm_compute. reflexivity.
  - vm_compute. reflexivity.
Defined.

Lemma send_message_tool_result_errors_witness :
  tr_error (mkToolResult "uuid-3" "get_pods" (JArr []) true None) = None.
Proof.
  refine (send_message_tool_result_errors clock_early sample_uuid 3600 close_returns
            stream_with_tool "s1" "hello" sample_state
            (mkToolResult "uuid-3" "get_pods" (JArr []) true None) "s1" _ _).
  - vm_compute. apply list_elem_of_In. right. right. left. reflexivity.
  - reflexivity.
Defined.

End GooseFacts.

(** ** The REST endpoints *)
Module GooseApiFacts.
Import Models Goose GooseStream GooseApi.

Lemma collect_nonterminal (pre : list Event) :
  ∀ rest sid acc tc tr,
    Forall (λ ev, is_terminal ev = false) pre →
    ∃ tc' tr',
      collect (pre ++ rest) sid acc tc tr
      = collect rest sid (acc +:+ joined (event_deltas pre)) tc' tr'.
Proof.
  induction pre as [|ev pre IH]; intros rest sid acc tc tr Hpre.
  { exists tc, tr. cbn. by rewrite GooseFacts.append_empty_r. }
  apply Forall_cons in Hpre as [Hev Hpre].
  destruct ev; try discriminate; cbn [app collect event_deltas].
  - apply (IH rest sid acc tc tr Hpre).
  - destruct (IH rest sid (acc +:+ delta) tc tr Hpre) as (tc' & tr' & ->).
    exists tc', tr'.
    change (joined (delta :: event_deltas pre))
      with (delta +:+ joined (event_deltas pre)).
    by rewrite KubectlProofs.append_assoc.
  - apply (IH rest sid acc (tc ++ [tool_call]) tr Hpre).
  - apply (IH rest sid acc tc (tr ++ [tool_result]) Hpre).
Qed.

Section Endpoints.
Variable now_at : nat → Z.
Variable uuid_at : nat → string.
Variable goose_session_timeout : Z.
Variable close_of : handle → option string.
Variable stream_of : handle → string → upstream.

Local Abbreviation expired_at := (Goose.expired_at now_at goose_session_timeout).
Local Abbreviation close_session := (Goose.close_session close_of).
Local Abbreviation get_session :=
  (Goose.get_session now_at goose_session_timeout close_of).
Local Abbreviation send_message :=
  (Goose.send_message now_at uuid_at goose_session_timeout close_of stream_of).
Local Abbreviation send_message_to_session :=
  (GooseApi.send_message_to_session now_at uuid_at goose_session_timeout close_of
     stream_of).
Local Abbreviation close_goose_session := (GooseApi.close_goose_session close_of).

(** The endpoint on a session that is live at its own check: the turn
    runs from the store after that check. *)
Lemma send_message_to_session_live sid message st s :
  sessions st !! sid = Some s → expired_at st s = false →
  send_message_to_session sid message st
  = (collect (send_message sid message (tick st)).1 sid "" [] [],
     (send_message sid message (tick st)).2).
Proof.
  intros Hs He. unfold GooseApi.send_message_to_session, bind.
  rewrite (GooseProofs.get_session_live now_at goose_session_timeout close_of
             sid st s Hs He).
  unfold ret. by destruct (send_message sid message (tick st)).
Qed.

(** X13. For a session that is live at both checks and whose stream
    delivers [message_complete], the endpoint returns the concatenation
    of the text fragments as [content], and that is the content of the
    assistant message the turn appended, last, to the session. *)
Theorem rest_reply_matches_session sid message st s :
  sessions st !! sid = Some s →
  expired_at st s = false → expired_at (tick st) s = false →
  has_complete (items (goose_send_message stream_of s message)) = true →
  let text := joined (deltas_before_complete
                        (items (goose_send_message stream_of s message))) in
  ∃ reply um am s',
    (send_message_to_session sid message st).1 = Ok200 reply
    ∧ reply_content reply = text ∧ reply_session_id reply = sid
    ∧ sessions (send_message_to_session sid message st).2 !! sid = Some s'
    ∧ messages s' = messages s ++ [um; am]
    ∧ role am = ASSISTANT ∧ content am = reply_content reply.
Proof.
  intros Hs He1 He2 Hc text. subst text.
  rewrite (send_message_to_session_live sid message st s Hs He1). cbn [fst snd].
  assert (Hg : (get_session sid (tick st)).1 = Some s).
  { by rewrite (GooseProofs.get_session_live now_at goose_session_timeout close_of
                  sid (tick st) s Hs He2). }
  pose proof (GooseFacts.live_turn_deltas now_at uuid_at goose_session_timeout
                close_of stream_of sid message (tick st) s Hg) as Hd.
  destruct (GooseFacts.send_message_live_detail now_at uuid_at goose_session_timeout
              close_of stream_of sid message (tick st) s Hg) as [_ Hsend].
  rewrite Hsend in Hd |- *. cbv zeta in Hd |- *.
  match goal with
  | |- context [Goose.stream_loop now_at uuid_at sid ?m ?i ?e "" [] [] ?st2] =>
      destruct (GooseFacts.stream_loop_complete now_at uuid_at sid m e i "" [] [] st2 Hc)
        as (pre & tc & tr & Hout & Hpre & Hst)
  end.
  cbn [fst snd] in Hd |- *. rewrite Hout in Hd |- *. rewrite Hst.
  rewrite app_comm_cons in Hd |- *.
  assert (Hpre' : Forall (λ ev, is_terminal ev = false) (SessionStart sid :: pre))
    by by constructor.
  match goal with
  | |- context [collect (?p ++ ?r) sid "" [] []] =>
      destruct (collect_nonterminal p r sid "" [] [] Hpre') as (tc' & tr' & Hcol)
  end.
  rewrite Hcol.
  assert (Hd' : event_deltas (SessionStart sid :: pre)
                = deltas_before_complete
                    (items (goose_send_message stream_of s message))).
  { rewrite <- Hd. clear. induction (SessionStart sid :: pre) as [|ev l IH]; [done|].
    destruct ev; cbn [app event_deltas]; by rewrite ?IH. }
  rewrite Hd'. cbn [collect append].
  eexists _, _, _, _. split; [reflexivity|].
  cbn [reply_content reply_session_id sessions tick].
  rewrite !lookup_alter_eq, Hs. cbn [fmap option_fmap option_map].
  split; [reflexivity|]. split; [reflexivity|]. split; [reflexivity|].
  cbn [messages set_updated_at append_message].
  rewrite <- app_assoc. split; [reflexivity|]. done.
Qed.

(** X14. The endpoint answers 404 when the id names no live session at
    its own check; a session that is live at that check but expired at
    the check inside [send_message] is answered 500, with the
    session-not-found error of the turn as detail. *)
Theorem rest_missing_session_status sid message st :
  ((get_session sid st).1 = None →
   (send_message_to_session sid message st).1
   = HTTPException 404 "Session not found")
  ∧ ∀ s, sessions st !! sid = Some s →
         expired_at st s = false → expired_at (tick st) s = true →
         (send_message_to_session sid message st).1
         = HTTPException 500 ("Session " +:+ sid +:+ " not found or expired").
Proof.
  split.
  - intros Hg. unfold GooseApi.send_message_to_session, bind.
    destruct (get_session sid st) as [[s|] st1]; [discriminate|done].
  - intros s Hs He1 He2.
    rewrite (send_message_to_session_live sid message st s Hs He1). cbn [fst].
    rewrite (GooseProofs.send_message_missing now_at uuid_at goose_session_timeout
               close_of stream_of sid message (tick st)); [done|].
    by rewrite (GooseProofs.get_session_expired now_at goose_session_timeout close_of
                  sid (tick st) s Hs He2).
Qed.

(** X15. When the Goose stream of a live session ends without
    [message_complete] and without raising, the endpoint still returns
    the fragments gathered so far as [content], while the session holds
    the user message only and nothing of that text. *)
Theorem rest_partial_reply_not_stored sid message st s :
  sessions st !! sid = Some s →
  expired_at st s = false → expired_at (tick st) s = false →
  has_complete (items (goose_send_message stream_of s message)) = false →
  ending (goose_send_message stream_of s message) = Exhausted →
  ∃ reply um s',
    (send_message_to_session sid message st).1 = Ok200 reply
    ∧ reply_content reply
      = joined (deltas_before_complete
                  (items (goose_send_message stream_of s message)))
    ∧ sessions (send_message_to_session sid message st).2 !! sid = Some s'
    ∧ messages s' = messages s ++ [um]
    ∧ role um = USER ∧ content um = message.
Proof.
  intros Hs He1 He2 Hc Hend.
  rewrite (send_message_to_session_live sid message st s Hs He1). cbn [fst snd].
  assert (Hg : (get_session sid (tick st)).1 = Some s).
  { by rewrite (GooseProofs.get_session_live now_at goose_session_timeout close_of
                  sid (tick st) s Hs He2). }
  pose proof (GooseProofs.send_message_shape now_at uuid_at goose_session_timeout
                close_of stream_of sid message (tick st)) as H.
  cbn zeta in H. rewrite Hg, Hc, Hend in H.
  destruct H as (pre & um & t & Hpre & Hrole & Hcontent & Hst & Hev).
  rewrite app_nil_r in Hev.
  pose proof (GooseFacts.live_turn_deltas now_at uuid_at goose_session_timeout
                close_of stream_of sid message (tick st) s Hg) as Hd.
  rewrite Hev in Hd.
  rewrite Hev, Hst.
  assert (Hpre' : Forall (λ ev, is_terminal ev = false) (SessionStart sid :: pre))
    by by constructor.
  destruct (collect_nonterminal (SessionStart sid :: pre) [] sid "" [] [] Hpre')
    as (tc' & tr' & Hcol).
  rewrite app_nil_r in Hcol. rewrite Hcol, Hd. cbn [collect append].
  eexists _, um, _. split; [reflexivity|]. split; [reflexivity|].
  cbn [tick sessions]. rewrite !lookup_alter_eq, Hs. split; [reflexivity|]. done.
Qed.

(** X16. The close endpoint answers 404 "Session not found" for a stored
    session whose Goose session raises on [close], and the session stays
    stored. *)
Theorem rest_close_failure_is_404 sid st s :
  sessions st !! sid = Some s → Goose.close_succeeds close_of s = false →
  (close_goose_session sid st).1 = HTTPException 404 "Session not found"
  ∧ sessions (close_goose_session sid st).2 !! sid = Some s.
Proof.
  intros Hs Hc. unfold GooseApi.close_goose_session, bind.
  destruct (GooseProofs.close_session_kept close_of sid st s Hs Hc) as [Hres Hst].
  destruct (close_session sid st) as [b st1]. cbn [fst snd] in *. subst b.
  cbn. by rewrite Hst.
Qed.

End Endpoints.

Lemma rest_reply_matches_session_witness :
  ∃ reply um am s',
    (send_message_to_session clock_early sample_uuid 3600 close_returns
       stream_completes "s1" "hello" sample_state).1 = Ok200 reply
    ∧ reply_content reply = "Hello" ∧ reply_session_id reply = "s1"
    ∧ sessions (send_message_to_session clock_early sample_uuid 3600 close_returns
                  stream_completes "s1" "hello" sample_state).2 !! "s1" = Some s'
    ∧ messages s' = messages sample_session ++ [um; am]
    ∧ role am = ASSISTANT ∧ content am = reply_content reply.
Proof.
  refine (rest_reply_matches_session clock_early sample_uuid 3600 close_returns
            stream_completes "s1" "hello" sample_state sample_session _ _ _ _);
    vm_compute; reflexivity.
Defined.

Lemma rest_missing_session_status_witness :
  (send_message_to_session clock_early sample_uuid 3600 close_returns
     stream_completes "nope" "hello" sample_state).1
  = HTTPException 404 "Session not found"
  ∧ (send_message_to_session (λ n, if Nat.eqb n 0 then 1000 else 3600000001)%Z
       sample_uuid 3600 close_returns stream_completes "s1" "hello" sample_state).1
    = HTTPException 500 "Session s1 not found or expired".
Proof.
  split.
  - refine (proj1 (rest_missing_session_status clock_early sample_uuid 3600
                     close_returns stream_completes "nope" "hello" sample_state) _).
    vm_compute. reflexivity.
  - refine (proj2 (rest_missing_session_status
                     (λ n, if Nat.eqb n 0 then 1000 else 3600000001)%Z
                     sample_uuid 3600 close_returns stream_completes "s1" "hello"
                     sample_state) sample_session _ _ _);
      vm_compute; reflexivity.
Defined.

Lemma rest_partial_reply_not_stored_witness :
  ∃ reply um s',
    (send_message_to_session clock_early sample_uuid 3600 close_returns
       stream_stops "s1" "hello" sample_state).1 = Ok200 reply
    ∧ reply_content reply = "Hel"
    ∧ sessions (send_message_to_session clock_early sample_uuid 3600 close_returns
                  stream_stops "s1" "hello" sample_state).2 !! "s1" = Some s'
    ∧ messages s' = messages sample_session ++ [um]
    ∧ role um = USER ∧ content um = "hello".
Proof.
  refine (rest_partial_reply_not_stored clock_early sample_uuid 3600 close_returns
            stream_stops "s1" "hello" sample_state sample_session _ _ _ _ _);
    vm_compute; reflexivity.
Defined.

Lemma rest_close_failure_is_404_witness :
  (close_goose_session close_raises "s1" sample_state).1
  = HTTPException 404 "Session not found".
Proof.
  refine (proj1 (rest_close_failure_is_404 close_raises "s1" sample_state
                   sample_session _ _)); vm_compute; reflexivity.
Defined.

End GooseApiFacts.

(** ** The workflow's tool results and messages *)
Module WorkflowFacts.
Import Workflow Dict.

Lemma dict_lookup_set d k v k' :
  dict_lookup (dict_set d k v) k'
  = if String.eqb k k' then Some v else dict_lookup d k'.
Proof.
  induction d as [|[k0 v0] d IH]; cbn [dict_set dict_lookup].
  { done. }
  destruct (String.eqb_spec k0 k) as [->|Hne]; cbn [dict_lookup].
  - by destruct (String.eqb k k').
  - destruct (String.eqb_spec k0 k') as [->|Hne'].
    + by rewrite (proj2 (String.eqb_neq k k')).
    + exact IH.
Qed.

Section Turn.
Variable analyze_user_intent : string → list json → outcome IntentAnalysis.
Variable get_cluster_status : outcome json.
Variable execute_k8s_command : nat → string → outcome json.
Variable get_claude_response : list json → outcome string.
Variable now_isoformat : string.
Variable str_of : json → string.
Variable logger_error : string → string → outcome unit.

Local Abbreviation run_tools := (Workflow.run_tools execute_k8s_command logger_error).
Local Abbreviation gather_context :=
  (Workflow.gather_context get_cluster_status execute_k8s_command logger_error).
Local Abbreviation enhance :=
  (Workflow._enhance_messages_with_k8s_context now_isoformat str_of).
Local Abbreviation message_dict := (Workflow.message_dict now_isoformat).
Local Abbreviation try_body :=
  (Workflow.try_body get_cluster_status execute_k8s_command get_claude_response
     now_isoformat str_of logger_error).
Local Abbreviation run :=
  (Workflow.run analyze_user_intent get_cluster_status execute_k8s_command
     get_claude_response now_isoformat str_of logger_error).

Local Abbreviation results_of rd := (default [] (k8s_tool_results rd)).

Lemma results_of_record t r rd :
  results_of (record_tool_result t r rd) = dict_set (results_of rd) t r.
Proof. reflexivity. Qed.

Lemma run_tools_other tools : ∀ i rd tool,
  tool ∉ tools →
  dict_lookup (results_of (run_tools i tools rd).1) tool
  = dict_lookup (results_of rd) tool.
Proof.
  induction tools as [|t tools IH]; intros i rd tool Hnin; [done|].
  apply not_elem_of_cons in Hnin as [Hne Hnin].
  cbn [Workflow.run_tools].
  destruct (execute_k8s_command i t) as [r|e].
  - rewrite (IH _ _ _ Hnin), results_of_record.
    rewrite dict_lookup_set. by rewrite (proj2 (String.eqb_neq t tool)).
  - destruct (logger_error _ e); [by apply IH | done].
Qed.

Lemma run_tools_entry_kept tools : ∀ i rd tool v,
  dict_lookup (results_of rd) tool = Some v →
  ∃ v', dict_lookup (results_of (run_tools i tools rd).1) tool = Some v'.
Proof.
  induction tools as [|t tools IH]; intros i rd tool v Hv; [by exists v|].
  cbn [Workflow.run_tools].
  destruct (execute_k8s_command i t) as [r|e].
  - destruct (String.eqb_spec t tool) as [->|Hne].
    + apply (IH _ _ _ r).
      by rewrite results_of_record, dict_lookup_set, String.eqb_refl.
    + apply (IH _ _ _ v).
      by rewrite results_of_record, dict_lookup_set, (proj2 (String.eqb_neq t tool)).
  - destruct (logger_error _ e); [by apply (IH _ _ _ v) | by exists v].
Qed.

Lemma run_tools_entry_source tools : ∀ i rd tool v,
  dict_lookup (results_of (run_tools i tools rd).1) tool = Some v →
  dict_lookup (results_of rd) tool = Some v
  ∨ ∃ j, tools !! j = Some tool ∧ execute_k8s_command (i + j) tool = Returns v.
Proof.
  induction tools as [|t tools IH]; intros i rd tool v Hv; [by left|].
  cbn [Workflow.run_tools] in Hv.
  destruct (execute_k8s_command i t) as [r|e] eqn:He.
  - destruct (IH _ _ _ _ Hv) as [Hin | (j & Hj & Hr)].
    + rewrite results_of_record, dict_lookup_set in Hin.
      destruct (String.eqb_spec t tool) as [->|Hne]; [|by left].
      injection Hin as <-. right. exists 0. by rewrite Nat.add_0_r.
    + right. exists (S j). split; [done|]. by rewrite Nat.add_succ_r.
  - destruct (logger_error _ e); [|by left].
    destruct (IH _ _ _ _ Hv) as [Hin | (j & Hj & Hr)]; [by left|].
    right. exists (S j). split; [done|]. by rewrite Nat.add_succ_r.
Qed.

(** In a loop that was not left early, a tool whose activity returned
    has an entry. *)
Lemma run_tools_entry_made tools : ∀ i rd j tool r,
  tools !! j = Some tool → execute_k8s_command (i + j) tool = Returns r →
  (run_tools i tools rd).2 = None →
  (∃ v, dict_lookup (results_of (run_tools i tools rd).1) tool = Some v)
  ∧ (NoDup tools →
     dict_lookup (results_of (run_tools i tools rd).1) tool = Some r).
Proof.
  induction tools as [|t tools IH]; intros i rd j tool r Hj Hr; [done|].
  cbn [Workflow.run_tools].
  destruct j as [|j].
  - injection Hj as ->. rewrite Nat.add_0_r in Hr. rewrite Hr. intros _.
    assert (Hnow : dict_lookup (results_of (record_tool_result tool r rd)) tool = Some r).
    { by rewrite results_of_record, dict_lookup_set, String.eqb_refl. }
    split; [by apply (run_tools_entry_kept _ _ _ _ r)|].
    intros [Hnin _]%NoDup_cons. by rewrite run_tools_other.
  - cbn in Hj. rewrite Nat.add_succ_r in Hr.
    destruct (execute_k8s_command i t) as [r0|e0].
    + intros Hend.
      destruct (IH (S i) (record_tool_result t r0 rd) j tool r Hj Hr Hend) as [H1 H2].
      split; [done|]. intros [_ Hnd]%NoDup_cons. auto.
    + destruct (logger_error _ e0); [|discriminate]. intros Hend.
      destruct (IH (S i) rd j tool r Hj Hr Hend) as [H1 H2].
      split; [done|]. intros [_ Hnd]%NoDup_cons. auto.
Qed.

(** When every tool activity returns, the loop runs to its end. *)
Lemma run_tools_all_return tools i rd :
  (∀ j tool, tools !! j = Some tool →
             ∃ r, execute_k8s_command (i + j) tool = Returns r) →
  (run_tools i tools rd).2 = None.
Proof.
  intros Hall. destruct ((run_tools i tools rd).2) as [t|] eqn:Hend; [|done].
  destruct (WorkflowProofs.run_tools_left execute_k8s_command logger_error
              i tools rd t Hend) as (j & tool & e & Hj & He & _).
  destruct (Hall j tool Hj) as [r Hr]. congruence.
Qed.

(** When step 2 ends without an exception and the completion answers,
    [run] returns what step 2 left, with the answer as its response. *)
Lemma run_after_gather user_message history cid ia rd1 text :
  analyze_user_intent user_message history = Returns ia →
  gather_context (mkTurnResult cid ia None None None None) = (rd1, None) →
  get_claude_response
    (enhance history user_message (k8s_data rd1) (k8s_tool_results rd1))
  = Returns text →
  run user_message history cid = Returns (set_response text rd1).
Proof.
  intros Hia Hg Hc. unfold Workflow.run. rewrite Hia.
  unfold Workflow.try_body. by rewrite Hg, Hc.
Qed.

(** X17. When the analysis asks for the cluster, the cluster status is
    obtained and every suggested tool's activity returns, step 2 ends
    without an exception; what it leaves holds that status, has an entry
    for every suggested tool and no other entry, each entry being a
    result that tool's activity returned (its own result when the tool
    names are distinct); and when the completion answers on the messages
    built from it, [run] returns it with the answer as response and no
    error. *)
Theorem run_records_returned_tools user_message history cid ia cs :
  analyze_user_intent user_message history = Returns ia →
  default false (requires_k8s ia) = true →
  get_cluster_status = Returns cs →
  let tools := default [] (suggested_tools ia) in
  (∀ j tool, tools !! j = Some tool →
             ∃ r, execute_k8s_command j tool = Returns r) →
  ∃ rd1,
    gather_context (mkTurnResult cid ia None None None None) = (rd1, None)
    ∧ k8s_data rd1 = Some cs ∧ error rd1 = None
    ∧ (∀ tool v, dict_lookup (results_of rd1) tool = Some v →
         ∃ j, tools !! j = Some tool ∧ execute_k8s_command j tool = Returns v)
    ∧ (∀ tool, tool ∈ tools → ∃ v, dict_lookup (results_of rd1) tool = Some v)
    ∧ (NoDup tools →
       ∀ j tool r, tools !! j = Some tool →
         execute_k8s_command j tool = Returns r →
         dict_lookup (results_of rd1) tool = Some r)
    ∧ (∀ text,
         get_claude_response
           (enhance history user_message (k8s_data rd1) (k8s_tool_results rd1))
         = Returns text →
         run user_message history cid = Returns (set_response text rd1)).
Proof.
  intros Hia Hreq Hcs tools Hall.
  set (rd0 := set_k8s_data cs (mkTurnResult cid ia None None None None)).
  pose proof (run_tools_all_return tools 0 rd0 Hall) as Hend.
  assert (Hg : gather_context (mkTurnResult cid ia None None None None)
               = ((run_tools 0 tools rd0).1, None)).
  { unfold Workflow.gather_context. cbn [intent_analysis]. rewrite Hreq, Hcs.
    fold tools rd0. destruct (run_tools 0 tools rd0) as [rd1 o].
    cbn [fst snd] in *. by subst o. }
  exists (run_tools 0 tools rd0).1. split; [exact Hg|].
  destruct (WorkflowProofs.run_tools_frame execute_k8s_command logger_error
              0 tools rd0) as (_ & _ & Hk & _ & He).
  split; [by rewrite Hk|]. split; [by rewrite He|].
  split; [|split; [|split]].
  - intros tool v Hv.
    destruct (run_tools_entry_source tools 0 _ tool v Hv) as [Hin|Hj]; [done|].
    exact Hj.
  - intros tool [j Hj]%list_elem_of_lookup. destruct (Hall j tool Hj) as [r Hr].
    exact (proj1 (run_tools_entry_made tools 0 rd0 j tool r Hj Hr Hend)).
  - intros Hnd j tool r Hj Hr.
    exact (proj2 (run_tools_entry_made tools 0 rd0 j tool r Hj Hr Hend) Hnd).
  - intros text Hc.
    exact (run_after_gather user_message history cid ia _ text Hia Hg Hc).
Qed.

(** X18. When the analysis does not ask for the cluster (the entry is
    false or missing), the completion is asked with the history followed
    by the user message alone. When it answers, [run] returns a result
    with no cluster data, no tool results, the answer as response and no
    error. When it raises, the outer handler logs first: if that call
    raises, [run] raises its exception; only if it returns does [run]
    return the explanation with [error] set. *)
Theorem run_without_k8s user_message history cid ia :
  analyze_user_intent user_message history = Returns ia →
  default false (requires_k8s ia) = false →
  let asked := history ++ [message_dict ("user-" +:+ str_of_nat (length history))
                             "user" user_message] in
  match get_claude_response asked with
  | Returns text =>
      ∃ rd, run user_message history cid = Returns rd
            ∧ k8s_data rd = None ∧ k8s_tool_results rd = None
            ∧ response rd = Some text ∧ error rd = None
  | Raises e =>
      match logger_error "Error in chat workflow" e with
      | Raises t => run user_message history cid = Raises t
      | Returns _ =>
          ∃ rd, run user_message history cid = Returns rd
                ∧ k8s_data rd = None ∧ k8s_tool_results rd = None
                ∧ response rd = Some (apology e) ∧ error rd = Some e
      end
  end.
Proof.
  intros Hia Hreq asked. unfold Workflow.run. rewrite Hia.
  unfold Workflow.try_body, Workflow.gather_context.
  cbn [intent_analysis]. rewrite Hreq.
  cbn [k8s_data k8s_tool_results Workflow._enhance_messages_with_k8s_context orb].
  fold asked.
  destruct (get_claude_response asked) as [text|e].
  - by eexists.
  - destruct (logger_error "Error in chat workflow" e); [by eexists | done].
Qed.

(** The messages built for the completion start with the history,
    unchanged, and end with the current user message; between the two
    there is at most one message, the cluster context, whose role is
    system. *)
Lemma enhance_keeps_history_and_ends_with_user history user_message data results :
  ∃ ctx,
    enhance history user_message data results
    = history ++ ctx
      ++ [message_dict ("user-" +:+ str_of_nat (length history)) "user" user_message]
    ∧ (ctx = [] ∨ ∃ i c, ctx = [message_dict i "system" c]).
Proof.
  unfold Workflow._enhance_messages_with_k8s_context.
  destruct (_ || _).
  - eexists [_]. split; [reflexivity|]. right. eauto.
  - exists []. split; [reflexivity|]. by left.
Qed.

End Turn.

Lemma run_records_returned_tools_witness :
  ∃ rd,
    Workflow.run sample_intent cluster_ready tools_return claude_answers
      "2024-01-01T00:00:00" str_braces logger_refuses_keyword "list pods" [] "c1"
    = Returns rd
    ∧ k8s_data rd = Some (JObj [("status", JStr "ok")])
    ∧ dict_lookup (default [] (k8s_tool_results rd)) "get_pods" = Some (JArr []).
Proof.
  destruct (run_records_returned_tools sample_intent cluster_ready tools_return
              claude_answers "2024-01-01T00:00:00" str_braces logger_refuses_keyword
              "list pods" [] "c1" _ (JObj [("status", JStr "ok")])
              eq_refl eq_refl eq_refl (λ j tool _, ex_intro _ (JArr []) eq_refl))
    as (rd1 & _ & Hdata & _ & _ & _ & Hown & Hrun).
  exists (set_response "Here are your pods." rd1).
  split; [exact (Hrun "Here are your pods." eq_refl)|].
  split; [exact Hdata|].
  refine (Hown _ 0 "get_pods" (JArr []) eq_refl eq_refl).
  apply NoDup_singleton.
Defined.

Lemma run_without_k8s_witness :
  (∃ rd,
     Workflow.run intent_plain cluster_ready tools_fail claude_answers
       "2024-01-01T00:00:00" str_braces logger_refuses_keyword "hello" [] "c1"
     = Returns rd
     ∧ k8s_data rd = None ∧ k8s_tool_results rd = None
     ∧ response rd = Some "Here are your pods." ∧ error rd = None)
  ∧ Workflow.run intent_plain cluster_ready tools_fail claude_fails
      "2024-01-01T00:00:00" str_braces logger_refuses_keyword "hello" [] "c1"
    = Raises "Logger._log() got an unexpected keyword argument 'error'".
Proof.
  split.
  - exact (run_without_k8s intent_plain cluster_ready tools_fail claude_answers
             "2024-01-01T00:00:00" str_braces logger_refuses_keyword
             "hello" [] "c1" _ eq_refl eq_refl).
  - exact (run_without_k8s intent_plain cluster_ready tools_fail claude_fails
             "2024-01-01T00:00:00" str_braces logger_refuses_keyword
             "hello" [] "c1" _ eq_refl eq_refl).
Defined.

End WorkflowFacts.

(** ** The MCP clients, the activities and the completion input *)
Module ActivitiesFacts.
Import Models Dict Workflow.

(** X19. The application's MCP client and the extension's give the same
    dictionary for every outcome of the request: the application raises
    on an error member and catches it, the extension builds the error
    dictionary directly. *)
Theorem mcp_clients_agree
    (post_tools_call : string → list (string * json) → outcome (list (string * json)))
    (str_of : json → string) (tool_name : string) (arguments : list (string * json)) :
  McpClient.call_tool post_tools_call str_of tool_name arguments
  = McpClient.extension_call_tool post_tools_call str_of tool_name arguments.
Proof.
  unfold McpClient.call_tool, McpClient.call_tool_body, McpClient.extension_call_tool.
  destruct (post_tools_call tool_name arguments) as [result|e]; [|done].
  destruct (dict_lookup result "result"); [done|].
  by destruct (dict_lookup result "error").
Qed.

Lemma ChatMessage_refuses_none_timestamp
    (datetime_of : json → option Z) (id role content metadata : json) :
  ∃ fields,
    Activities.ChatMessage_validate datetime_of id role content JNull metadata
    = Activities.Raise (Activities.ValidationError "ChatMessage" fields)
    ∧ "timestamp" ∈ fields.
Proof.
  unfold Activities.ChatMessage_validate. cbn [Activities.validate_datetime].
  destruct (Activities.validate_str id), (Activities.validate_role role),
    (Activities.validate_str content), (Activities.validate_metadata metadata);
    eexists; (split; [reflexivity|]); cbn; set_solver.
Qed.

Section IntentAnalysis.
Variable datetime_of : json → option Z.
Variable json_loads : string → option json.
Variable lower : string → string.
Variable analysis_prompt : string → list json → string.
Variable analysis_system_prompt : string.
Variable get_chat_completion : list ChatMessage → option string → outcome string.

(** X20. [analyze_user_intent] never reaches the completion: its
    [ChatMessage] is built with [timestamp=None], which the model
    refuses, so for every message and context it returns the error
    result, with [requires_k8s] false. *)
Theorem analyze_user_intent_always_error message conversation_context :
  Activities.analyze_user_intent datetime_of json_loads lower analysis_prompt
    analysis_system_prompt get_chat_completion message conversation_context
  = Activities.ErrorInAnalysis.
Proof.
  unfold Activities.analyze_user_intent.
  destruct (ChatMessage_refuses_none_timestamp datetime_of (JStr "analysis")
              (JStr "user") (JStr (analysis_prompt message conversation_context)) JNull)
    as (fields & -> & _).
  reflexivity.
Qed.
End IntentAnalysis.

Lemma convert_app (a b : list ChatMessage) :
  Anthropic._convert_messages_to_anthropic_format (a ++ b)
  = Anthropic._convert_messages_to_anthropic_format a
    ++ Anthropic._convert_messages_to_anthropic_format b.
Proof.
  induction a as [|m a IH]; [done|].
  cbn [app Anthropic._convert_messages_to_anthropic_format].
  destruct (role m); by rewrite ?IH.
Qed.

Section Completion.
Variable datetime_of : json → option Z.
Variable messages_create : string → list (string * string) → outcome (list string).
Variable default_system_prompt : string.
Variable now_isoformat : string.
Variable str_of : json → string.

Local Abbreviation to_chat_message := (Activities.to_chat_message datetime_of).
Local Abbreviation to_chat_messages := (Activities.to_chat_messages datetime_of).
Local Abbreviation get_claude_response :=
  (Activities.get_claude_response datetime_of
     (Anthropic.get_chat_completion messages_create default_system_prompt)).
Local Abbreviation enhance :=
  (Workflow._enhance_messages_with_k8s_context now_isoformat str_of).
Local Abbreviation message_dict := (Workflow.message_dict now_isoformat).

Lemma to_chat_messages_app (a b : list json) :
  to_chat_messages (a ++ b)
  = match to_chat_messages a with
    | Activities.Raise e => Activities.Raise e
    | Activities.Ok ms =>
        match to_chat_messages b with
        | Activities.Raise e => Activities.Raise e
        | Activities.Ok ms' => Activities.Ok (ms ++ ms')
        end
    end.
Proof.
  induction a as [|m a IH]; cbn [app Activities.to_chat_messages].
  { by destruct (to_chat_messages b). }
  destruct (to_chat_message m); [|done]. rewrite IH.
  destruct (to_chat_messages a); [|done]. by destruct (to_chat_messages b).
Qed.

Lemma to_chat_message_user i c :
  to_chat_message (message_dict i "user" c)
  = match datetime_of (JStr now_isoformat) with
    | Some t => Activities.Ok (mkChatMessage i USER c t None None None)
    | None => Activities.Raise (Activities.ValidationError "ChatMessage" ["timestamp"])
    end.
Proof.
  unfold Workflow.message_dict, Activities.to_chat_message. cbn.
  unfold Activities.ChatMessage_validate. cbn.
  by destruct (datetime_of (JStr now_isoformat)).
Qed.

Lemma to_chat_message_system i c :
  to_chat_message (message_dict i "system" c)
  = match datetime_of (JStr now_isoformat) with
    | Some t => Activities.Ok (mkChatMessage i SYSTEM c t None None None)
    | None => Activities.Raise (Activities.ValidationError "ChatMessage" ["timestamp"])
    end.
Proof.
  unfold Workflow.message_dict, Activities.to_chat_message. cbn.
  unfold Activities.ChatMessage_validate. cbn.
  by destruct (datetime_of (JStr now_isoformat)).
Qed.

(** X21. The cluster context never reaches the completion: the workflow
    adds it as a system message, and the conversion to the Anthropic
    format skips system messages, so [get_claude_response] on the
    enhanced messages behaves as on the history followed by the user
    message alone, whatever cluster data and tool results were
    gathered. *)
Theorem cluster_context_is_dropped history user_message data results system_prompt :
  get_claude_response (enhance history user_message data results) system_prompt
  = get_claude_response
      (history ++ [message_dict ("user-" +:+ str_of_nat (length history))
                     "user" user_message])
      system_prompt.
Proof.
  destruct (WorkflowFacts.enhance_keeps_history_and_ends_with_user now_isoformat str_of
              history user_message data results) as (ctx & -> & [-> | (i & c & ->)]).
  { done. }
  unfold Activities.get_claude_response.
  rewrite !to_chat_messages_app.
  destruct (to_chat_messages history) as [hs|e]; [|done].
  cbn [Activities.to_chat_messages].
  rewrite to_chat_message_user, to_chat_message_system.
  destruct (datetime_of (JStr now_isoformat)) as [t|]; [|done].
  unfold Anthropic.get_chat_completion.
  by rewrite !convert_app.
Qed.
End Completion.

Section WithMcp.
Variable post_tools_call : string → list (string * json) → outcome (list (string * json)).
Variable str_of : json → string.
Variable analyze_user_intent : string → list json → outcome IntentAnalysis.
Variable get_claude_response : list json → outcome string.
Variable now_isoformat : string.
Variable logger_error : string → string → outcome unit.

Local Abbreviation call_tool := (McpClient.call_tool post_tools_call str_of).
Local Abbreviation get_cluster_info := (McpClient.get_cluster_info post_tools_call str_of).
Local Abbreviation gather_context :=
  (Workflow.gather_context (Returns get_cluster_info)
     (λ _ tool, Returns (call_tool tool [])) logger_error).
Local Abbreviation enhance :=
  (Workflow._enhance_messages_with_k8s_context now_isoformat str_of).
Local Abbreviation run :=
  (Workflow.run analyze_user_intent (Returns get_cluster_info)
     (λ _ tool, Returns (call_tool tool []))
     get_claude_response now_isoformat str_of logger_error).

(** X22. With the cluster activities answering through the
    application's MCP client, which turns every failure into an error
    dictionary, step 2 of a turn that asks for the cluster never raises
    and never logs an error: it records the cluster data and an entry for
    every suggested tool, and when the request for a tool fails its
    entry is the error dictionary of that failure. When the completion
    answers on the messages built from it, [run] returns it with the
    answer as response and no error, whatever the MCP requests did. *)
Theorem run_with_mcp_records_failures user_message history cid ia :
  analyze_user_intent user_message history = Returns ia →
  default false (requires_k8s ia) = true →
  ∃ rd1,
    gather_context (mkTurnResult cid ia None None None None) = (rd1, None)
    ∧ k8s_data rd1 = Some get_cluster_info ∧ error rd1 = None
    ∧ (∀ tool, tool ∈ default [] (suggested_tools ia) →
         dict_lookup (default [] (k8s_tool_results rd1)) tool
         = Some (call_tool tool []))
    ∧ (∀ tool e, tool ∈ default [] (suggested_tools ia) →
         post_tools_call tool [] = Raises e →
         dict_lookup (default [] (k8s_tool_results rd1)) tool
         = Some (McpClient.error_dict e))
    ∧ (∀ text,
         get_claude_response
           (enhance history user_message (k8s_data rd1) (k8s_tool_results rd1))
         = Returns text →
         run user_message history cid = Returns (set_response text rd1)).
Proof.
  intros Hia Hreq.
  set (exec := λ (_ : nat) (tool : string), Returns (call_tool tool [])).
  set (tools := default [] (suggested_tools ia)).
  set (rd0 := set_k8s_data get_cluster_info (mkTurnResult cid ia None None None None)).
  assert (Hend : (Workflow.run_tools exec logger_error 0 tools rd0).2 = None).
  { apply WorkflowFacts.run_tools_all_return. intros j tool _. by eexists. }
  assert (Hg : gather_context (mkTurnResult cid ia None None None None)
               = ((Workflow.run_tools exec logger_error 0 tools rd0).1, None)).
  { unfold Workflow.gather_context. cbn [intent_analysis]. rewrite Hreq.
    fold tools rd0 exec.
    destruct (Workflow.run_tools exec logger_error 0 tools rd0) as [rd1 o].
    cbn [fst snd] in *. by subst o. }
  exists (Workflow.run_tools exec logger_error 0 tools rd0).1.
  split; [exact Hg|].
  destruct (WorkflowProofs.run_tools_frame exec logger_error 0 tools rd0)
    as (_ & _ & Hk & _ & He).
  split; [by rewrite Hk|]. split; [by rewrite He|].
  assert (Hentry : ∀ tool, tool ∈ tools →
            dict_lookup (default [] (k8s_tool_results
                                       (Workflow.run_tools exec logger_error 0 tools rd0).1))
              tool
            = Some (call_tool tool [])).
  { intros tool [j Hj]%list_elem_of_lookup.
    destruct (WorkflowFacts.run_tools_entry_made exec logger_error tools 0 rd0
                j tool _ Hj eq_refl Hend) as [[v Hv] _].
    destruct (WorkflowFacts.run_tools_entry_source exec logger_error tools 0 rd0
                tool v Hv) as [Hin|(j' & _ & [= <-])]; [done|]. exact Hv. }
  split; [exact Hentry|]. split.
  - intros tool e Hin Hpost. rewrite (Hentry tool Hin).
    unfold McpClient.call_tool, McpClient.call_tool_body. by rewrite Hpost.
  - intros text Hc.
    exact (WorkflowFacts.run_after_gather analyze_user_intent
             (Returns get_cluster_info) exec get_claude_response now_isoformat
             str_of logger_error user_message history cid ia _ text Hia Hg Hc).
Qed.
End WithMcp.

Lemma run_with_mcp_records_failures_witness :
  ∃ rd,
    Workflow.run sample_intent
      (Returns (McpClient.get_cluster_info (λ _ _, Raises "connection refused") str_braces))
      (λ _ tool, Returns (McpClient.call_tool (λ _ _, Raises "connection refused")
                            str_braces tool []))
      claude_answers "2024-01-01T00:00:00" str_braces logger_refuses_keyword
      "list pods" [] "c1"
    = Returns rd
    ∧ error rd = None
    ∧ dict_lookup (default [] (k8s_tool_results rd)) "get_pods"
      = Some (McpClient.error_dict "connection refused").
Proof.
  destruct (run_with_mcp_records_failures (λ _ _, Raises "connection refused")
              str_braces sample_intent claude_answers "2024-01-01T00:00:00"
              logger_refuses_keyword "list pods" [] "c1" _ eq_refl eq_refl)
    as (rd1 & _ & _ & Herror & _ & Herr & Hrun).
  exists (set_response "Here are your pods." rd1).
  split; [exact (Hrun "Here are your pods." eq_refl)|].
  split; [exact Herror|].
  apply Herr; [|reflexivity]. apply list_elem_of_In. left. reflexivity.
Defined.

End ActivitiesFacts.

(** ** Processing a user message in the chat service *)
Module ChatTurnFacts.
Import Models Chat ChatTurn.

Lemma fold_left_append (l : list string) (acc : string) :
  fold_left String.append l acc = acc +:+ GooseStream.joined l.
Proof.
  revert acc. induction l as [|c l IH]; intros acc; cbn [fold_left].
  { by rewrite GooseFacts.append_empty_r. }
  rewrite IH. change (GooseStream.joined (c :: l)) with (c +:+ GooseStream.joined l).
  by rewrite KubectlProofs.append_assoc.
Qed.

Section Service.
Variable now_at : nat → Z.
Variable uuid_at : nat → string.
Variable strftime : Z → string.
Variable messages_stream : string → list (string * string) → Anthropic.text_stream.
Variable default_system_prompt : string.
Variable str_of_exn : exn → string.
Variable temporal_client : bool.
Variable _process_with_temporal : string → Conversation → State → list string * State.

Local Abbreviation process_user_message :=
  (ChatTurn.process_user_message now_at uuid_at strftime messages_stream
     default_system_prompt str_of_exn temporal_client _process_with_temporal).
Local Abbreviation stream_chat_completion :=
  (Anthropic.stream_chat_completion messages_stream default_system_prompt).

(** X23. [process_user_message] without a conversation id, with an
    empty one, or with one that is not stored, raises the validation
    error of [Conversation] before it yields anything, and stores
    nothing, whichever path is configured. *)
Theorem process_user_message_unknown_raises message conversation_id st :
  truthy_opt conversation_id = false
  ∨ conversations st !! default "" conversation_id = None →
  ∃ st',
    process_user_message message conversation_id st
    = (([], Some (ValidationError "Conversation" ["session_id"])), st')
    ∧ conversations st' = conversations st.
Proof.
  intros H. unfold ChatTurn.process_user_message.
  destruct (truthy_opt conversation_id) eqn:Ht.
  - destruct H as [?|H]; [discriminate|].
    unfold Chat.get_conversation. rewrite H.
    destruct (ChatProofs.create_conversation_raises now_at uuid_at strftime None st)
      as (st' & -> & Hst). by exists st'.
  - destruct (ChatProofs.create_conversation_raises now_at uuid_at strftime None st)
      as (st' & -> & Hst). by exists st'.
Qed.

(** X24. Without a Temporal client, a message for a stored conversation
    (stored under its own id) yields the chunks of the streamed
    completion, asked with the conversation's messages including the new
    user message, and leaves the conversation with two more messages: the
    user's, then the assistant's, whose content is the concatenation of
    the chunks yielded. When the stream raises, the last chunk is the
    error text, and it is stored as part of the assistant's content. *)
Theorem process_user_message_direct message cid st c :
  temporal_client = false →
  truthy cid = true → conversations st !! cid = Some c → id c = cid →
  ∃ um am c' st',
    role um = USER ∧ Models.content um = message
    ∧ process_user_message message (Some cid) st
      = ((stream_chat_completion (messages c ++ [um]) None, None), st')
    ∧ conversations st' !! cid = Some c'
    ∧ messages c' = messages c ++ [um; am]
    ∧ role am = ASSISTANT
    ∧ Models.content am
      = GooseStream.joined (stream_chat_completion (messages c ++ [um]) None)
    ∧ ∀ e, Anthropic.stream_ending
             (messages_stream default_system_prompt
                (Anthropic._convert_messages_to_anthropic_format (messages c ++ [um])))
           = Goose.Raised e →
           ∃ chunks, stream_chat_completion (messages c ++ [um]) None
                     = chunks ++ ["Error: " +:+ e].
Proof.
  intros Htc Hcid Hc Hid.
  unfold ChatTurn.process_user_message.
  cbn [truthy_opt default]. rewrite Hcid, Htc.
  rewrite (bool_decide_eq_true_2 _ (ltac:(eauto) : is_Some (conversations st !! cid))).
  cbn [andb]. change (Datatypes.id cid) with cid.
  unfold Chat.get_conversation at 1. rewrite Hc.
  destruct (ChatProofs.add_message_known now_at uuid_at strftime cid USER message st c Hc)
    as (um & st2 & Hadd & Hrole & Hcontent & c2 & Hc2 & Hmsgs2).
  rewrite Hadd, Hc2. cbn [default]. change (Datatypes.id c2) with c2.
  assert (Hid2 : id c2 = cid).
  { revert Hadd Hc2. unfold Chat.add_message, Chat.get_conversation, bind.
    rewrite Hc. rewrite bool_decide_eq_true_2 by eauto.
    unfold uuid4, datetime_now, with_conversations, Chat.ret.
    cbv beta iota. cbn [conversations clock_reads uuids_drawn].
    intros [= _ <-]. cbn [conversations]. rewrite !lookup_alter_eq, Hc.
    intros [= <-]. exact Hid. }
  unfold ChatTurn._process_directly. rewrite Hid2, Hmsgs2.
  destruct (ChatProofs.add_message_known now_at uuid_at strftime cid ASSISTANT
              (fold_left String.append
                 (stream_chat_completion (messages c ++ [um]) None) "")
              st2 c2 Hc2)
    as (am & st3 & Hadd3 & Hrole3 & Hcontent3 & c3 & Hc3 & Hmsgs3).
  rewrite Hadd3.
  exists um, am, c3, st3.
  split; [done|]. split; [done|]. split; [done|]. split; [done|].
  split; [by rewrite Hmsgs3, Hmsgs2, <- app_assoc|].
  split; [done|]. split.
  - rewrite Hcontent3. by rewrite fold_left_append.
  - intros e He. unfold Anthropic.stream_chat_completion, Anthropic.system_message.
    cbn [truthy_opt]. rewrite He. eauto.
Qed.

End Service.

Lemma process_user_message_unknown_raises_witness :
  ∃ st',
    ChatTurn.process_user_message sample_now sample_uuid sample_strftime
      stream_fails "prompt" str_validation false no_temporal "hello" None
      Chat.empty_state
    = (([], Some (ValidationError "Conversation" ["session_id"])), st')
    ∧ conversations st' = conversations Chat.empty_state.
Proof.
  refine (process_user_message_unknown_raises sample_now sample_uuid sample_strftime
            stream_fails "prompt" str_validation false no_temporal "hello" None
            Chat.empty_state _).
  left. reflexivity.
Defined.

Lemma process_user_message_direct_witness :
  ∃ um am c' st',
    ChatTurn.process_user_message sample_now sample_uuid sample_strftime
      stream_fails "prompt" str_validation false no_temporal "hello" (Some "c1")
      ChatTurn.sample_state
    = ((["Check"; "ing"; "Error: overloaded"], None), st')
    ∧ conversations st' !! "c1" = Some c'
    ∧ messages c' = [um; am]
    ∧ Models.content am = "CheckingError: overloaded".
Proof.
  destruct (process_user_message_direct sample_now sample_uuid sample_strftime
              stream_fails "prompt" str_validation false no_temporal "hello" "c1"
              ChatTurn.sample_state sample_conversation eq_refl eq_refl eq_refl eq_refl)
    as (um & am & c' & st' & _ & _ & Hrun & Hc' & Hmsgs & _ & Hcontent & _).
  exists um, am, c', st'. split; [exact Hrun|]. split; [exact Hc'|].
  split; [exact Hmsgs|]. exact Hcontent.
Defined.

End ChatTurnFacts.
